(** * Smart Expense Tracker: a shallow embedding of [expense_tracker.py]

    The development follows the source file top to bottom.  The store
    ([load_data], [save_data]), the date parser ([parse_date]) and the
    commands ([add_expense], [view_all], [monthly_summary], [delete]) are
    written in a small state-and-exception monad over a [world] that holds
    the console input, the printed report, the backing file and the clock.

    Modelling conventions:
    - text is a [string] of ASCII characters;
    - a Python [float] is a binary64 value, [spec_float] with precision 53
      and maximal exponent 1024, and arithmetic is the correctly rounded
      arithmetic of [SpecFloat];
    - a record is the typed dictionary the program itself writes;
    - every [print] appends one structured [line] to the report.

    [search], [export_csv] and the menu loop are not embedded; no property
    below concerns them. *)

From Stdlib Require Import ZArith List String Ascii Bool Lia.
From Stdlib Require Import Permutation Sorted.
From Stdlib Require Import SpecFloat DecimalString.
Import ListNotations.

Local Open Scope string_scope.
Local Open Scope list_scope.
Local Open Scope Z_scope.

(** ** Text: the built-ins [str.strip], [int] and [float] *)

Module Text.

(** ASCII characters for which [str.isspace] holds. *)
Definition is_space (c : ascii) : bool :=
  let n := N_of_ascii c in
  ((9 <=? n) && (n <=? 13) || (28 <=? n) && (n <=? 32))%N.

Fixpoint lstrip_chars (cs : list ascii) : list ascii :=
  match cs with
  | c :: cs' => if is_space c then lstrip_chars cs' else cs
  | [] => []
  end.

Definition strip_chars (cs : list ascii) : list ascii :=
  rev (lstrip_chars (rev (lstrip_chars cs))).

(** [s.strip()] *)
Definition strip (s : string) : string :=
  string_of_list_ascii (strip_chars (list_ascii_of_string s)).

Definition digit_val (c : ascii) : option Z :=
  let n := N_of_ascii c in
  if ((48 <=? n) && (n <=? 57))%N then Some (Z.of_N n - 48) else None.

Definition is_digit (c : ascii) : bool :=
  match digit_val c with Some _ => true | None => false end.

(** [digit (["_"] digit)*], read greedily; the digits read are returned
    most significant first together with the unread rest.  An underscore
    that is not followed by a digit is left unread. *)
Fixpoint digitpart_tail (cs : list ascii) : list Z * list ascii :=
  match cs with
  | c :: cs' =>
      match digit_val c with
      | Some d => let (ds, rest) := digitpart_tail cs' in (d :: ds, rest)
      | None =>
          if (c =? "_")%char then
            match cs' with
            | c' :: cs'' =>
                match digit_val c' with
                | Some d => let (ds, rest) := digitpart_tail cs'' in (d :: ds, rest)
                | None => ([], cs)
                end
            | [] => ([], cs)
            end
          else ([], cs)
      end
  | [] => ([], [])
  end.

Definition digitpart (cs : list ascii) : option (list Z * list ascii) :=
  match cs with
  | c :: cs' =>
      match digit_val c with
      | Some d => let (ds, rest) := digitpart_tail cs' in Some (d :: ds, rest)
      | None => None
      end
  | [] => None
  end.

Definition decimal (ds : list Z) : Z :=
  fold_left (fun acc d => 10 * acc + d) ds 0.

(** An optional sign: [true] stands for ["-"]. *)
Definition sign (cs : list ascii) : bool * list ascii :=
  match cs with
  | c :: cs' =>
      if (c =? "-")%char then (true, cs')
      else if (c =? "+")%char then (false, cs')
      else (false, cs)
  | [] => (false, [])
  end.

(** [int(s)] in base ten; [None] stands for the [ValueError] it raises. *)
Definition py_int (s : string) : option Z :=
  let (neg, body) := sign (strip_chars (list_ascii_of_string s)) in
  match digitpart body with
  | Some (ds, []) => Some (if neg then - decimal ds else decimal ds)
  | _ => None
  end.

End Text.

(** ** Floating point: Python's [float] as binary64 *)

Module Float.

Definition float : Type := spec_float.

Definition prec : Z := 53.
Definition emax : Z := 1024.

(** The float nearest to the integer [n], as in [float(n)]. *)
Definition of_Z (n : Z) : float := binary_normalize prec emax n 0 false.

Definition add : float -> float -> float := SFadd prec emax.
Definition mul : float -> float -> float := SFmul prec emax.

Definition is_zero (x : float) : bool :=
  match x with S754_zero _ => true | _ => false end.

Definition is_finite (x : float) : bool :=
  match x with S754_zero _ | S754_finite _ _ _ => true | _ => false end.

(** [x / y]; [None] stands for [ZeroDivisionError], which Python raises
    for a zero divisor of either sign. *)
Definition truediv (x y : float) : option float :=
  if is_zero y then None else Some (SFdiv prec emax x y).

(** The integer part of a finite float, rounded towards zero. *)
Definition trunc (x : float) : Z :=
  match x with
  | S754_finite s m e =>
      let a := if 0 <=? e then Z.shiftl (Zpos m) e else Z.shiftr (Zpos m) (- e) in
      if s then - a else a
  | _ => 0
  end.

(** The float nearest to [d * 10 ^ e10] (ties to even), [d >= 0], with
    sign [neg].  A negative exponent is a division: the quotient is taken
    with at least 55 bits and the remainder is folded into a sticky bit,
    so that the final rounding to 53 bits is the rounding of the exact
    value. *)
Definition of_decimal (neg : bool) (d e10 : Z) : float :=
  if d =? 0 then S754_zero neg
  else if 0 <=? e10 then
    binary_normalize prec emax ((if neg then - d else d) * 10 ^ e10) 0 false
  else
    let k := 10 ^ (- e10) in
    let s := Z.max 0 (56 + Z.log2 k - Z.log2 d) in
    let (q, r) := Z.div_eucl (Z.shiftl d s) k in
    let m := 2 * q + (if r =? 0 then 0 else 1) in
    binary_normalize prec emax (if neg then - m else m) (- s - 1) false.

Definition lower (c : ascii) : ascii :=
  let n := N_of_ascii c in
  if ((65 <=? n) && (n <=? 90))%N then ascii_of_N (n + 32) else c.

Definition keyword (cs : list ascii) : string :=
  string_of_list_ascii (map lower cs).

(** [("e" | "E") [sign] digitpart], or nothing, up to the end of the text. *)
Definition exponent (cs : list ascii) : option Z :=
  match cs with
  | [] => Some 0
  | c :: cs' =>
      if (lower c =? "e")%char then
        let (eneg, body) := Text.sign cs' in
        match Text.digitpart body with
        | Some (ds, []) => Some (if eneg then - Text.decimal ds else Text.decimal ds)
        | _ => None
        end
      else None
  end.

Definition finish (neg : bool) (ip fp : list Z) (rest : list ascii) : option float :=
  match exponent rest with
  | Some e => Some (of_decimal neg (Text.decimal (ip ++ fp)) (e - Z.of_nat (List.length fp)))
  | None => None
  end.

(** [float(s)]; [None] stands for the [ValueError] it raises.  The
    grammar is that of the language reference:
    [[sign] (number [exponent] | "inf" | "infinity" | "nan")] with
    [number ::= [digitpart] "." digitpart | digitpart ["."]]. *)
Definition py_float (s : string) : option float :=
  let (neg, body) := Text.sign (Text.strip_chars (list_ascii_of_string s)) in
  if (keyword body =? "inf")%string || (keyword body =? "infinity")%string then Some (S754_infinity neg)
  else if (keyword body =? "nan")%string then Some S754_nan
  else
    match Text.digitpart body with
    | Some (ip, rest) =>
        match rest with
        | c :: rest' =>
            if (c =? ".")%char then
              match Text.digitpart rest' with
              | Some (fp, rest'') => finish neg ip fp rest''
              | None => finish neg ip [] rest'
              end
            else finish neg ip [] rest
        | [] => finish neg ip [] []
        end
    | None =>
        match body with
        | c :: rest' =>
            if (c =? ".")%char then
              match Text.digitpart rest' with
              | Some (fp, rest'') => finish neg [] fp rest''
              | None => None
              end
            else None
        | [] => None
        end
    end.

End Float.

(** ** Calendar dates: [datetime.date], [str(date)] and [datetime.strptime] *)

Module Calendar.

Record date : Type := mkDate { year : Z; month : Z; day : Z }.

Definition is_leap (y : Z) : bool :=
  (y mod 4 =? 0) && (negb (y mod 100 =? 0) || (y mod 400 =? 0)).

Definition days_in_month (y m : Z) : Z :=
  if m =? 2 then (if is_leap y then 29 else 28)
  else if (m =? 4) || (m =? 6) || (m =? 9) || (m =? 11) then 30
  else 31.

(** The range checks of the [date(year, month, day)] constructor. *)
Definition valid_date (y m d : Z) : bool :=
  (1 <=? y) && (y <=? 9999) && (1 <=? m) && (m <=? 12)
  && (1 <=? d) && (d <=? days_in_month y m).

Definition digit_char (d : Z) : ascii := ascii_of_N (48 + Z.to_N d).

(** The [width] last decimal digits of [n], as for ["%04d"] and ["%02d"]
    on a number that fits. *)
Fixpoint zero_pad (width : nat) (n : Z) (acc : string) : string :=
  match width with
  | O => acc
  | S w => zero_pad w (n / 10) (String (digit_char (n mod 10)) acc)
  end.

(** [str(d)], the ISO form [YYYY-MM-DD]. *)
Definition isoformat (d : date) : string :=
  zero_pad 4 (year d) (String "-" (zero_pad 2 (month d) (String "-" (zero_pad 2 (day d) "")))).

(** The directives used by the program's format strings. *)
Inductive directive : Type :=
| Dir_Y | Dir_m | Dir_d
| Lit (c : ascii).

Fixpoint compile (fmt : list ascii) : option (list directive) :=
  match fmt with
  | [] => Some []
  | c :: fmt' =>
      if (c =? "%")%char then
        match fmt' with
        | k :: fmt'' =>
            let dir :=
              if (k =? "Y")%char then Some Dir_Y
              else if (k =? "m")%char then Some Dir_m
              else if (k =? "d")%char then Some Dir_d
              else None in
            match dir, compile fmt'' with
            | Some d, Some ds => Some (d :: ds)
            | _, _ => None
            end
        | [] => None
        end
      else option_map (cons (Lit c)) (compile fmt')
  end.

(** One alternative of a directive's pattern: the number it reads and the
    unread rest. *)
Definition alternative : Type := list ascii -> option (Z * list ascii).

Definition two_digits (ok : Z -> Z -> bool) : alternative :=
  fun cs =>
    match cs with
    | a :: b :: rest =>
        match Text.digit_val a, Text.digit_val b with
        | Some x, Some y => if ok x y then Some (10 * x + y, rest) else None
        | _, _ => None
        end
    | _ => None
    end.

Definition one_digit (ok : Z -> bool) : alternative :=
  fun cs =>
    match cs with
    | a :: rest =>
        match Text.digit_val a with
        | Some x => if ok x then Some (x, rest) else None
        | None => None
        end
    | _ => None
    end.

Definition after_space (alt : alternative) : alternative :=
  fun cs =>
    match cs with
    | c :: rest => if (c =? " ")%char then alt rest else None
    | [] => None
    end.

(** [%Y] is [\d\d\d\d]. *)
Definition pattern_Y : list alternative :=
  [fun cs =>
     match two_digits (fun _ _ => true) cs with
     | Some (hi, rest) =>
         match two_digits (fun _ _ => true) rest with
         | Some (lo, rest') => Some (100 * hi + lo, rest')
         | None => None
         end
     | None => None
     end].

(** [%m] is [1[0-2]|0[1-9]|[1-9]]. *)
Definition pattern_m : list alternative :=
  [two_digits (fun x y => (x =? 1) && (y <=? 2));
   two_digits (fun x y => (x =? 0) && (1 <=? y));
   one_digit (fun x => 1 <=? x)].

(** [%d] is [3[0-1]|[1-2]\d|0[1-9]|[1-9]| [1-9]]. *)
Definition pattern_d : list alternative :=
  [two_digits (fun x y => (x =? 3) && (y <=? 1));
   two_digits (fun x _ => (1 <=? x) && (x <=? 2));
   two_digits (fun x y => (x =? 0) && (1 <=? y));
   one_digit (fun x => 1 <=? x);
   after_space (one_digit (fun x => 1 <=? x))].

(** Alternatives are tried in order; an alternative is kept only if the
    rest of the pattern matches after it (backtracking). *)
Fixpoint try_alternatives {R : Type} (alts : list alternative)
    (k : Z -> list ascii -> option R) (cs : list ascii) : option R :=
  match alts with
  | [] => None
  | alt :: alts' =>
      match alt cs with
      | Some (v, rest) =>
          match k v rest with
          | Some r => Some r
          | None => try_alternatives alts' k cs
          end
      | None => try_alternatives alts' k cs
      end
  end.

(** A match of the compiled pattern at the start of [cs]: the fields read
    (year 1900, month 1, day 1 unless a directive sets them) and the
    unread rest. *)
Fixpoint regex_match (ds : list directive) (cs : list ascii) (f : date)
  : option (date * list ascii) :=
  match ds with
  | [] => Some (f, cs)
  | Lit c :: ds' =>
      match cs with
      | c' :: cs' => if (c =? c')%char then regex_match ds' cs' f else None
      | [] => None
      end
  | Dir_Y :: ds' =>
      try_alternatives pattern_Y
        (fun v rest => regex_match ds' rest (mkDate v (month f) (day f))) cs
  | Dir_m :: ds' =>
      try_alternatives pattern_m
        (fun v rest => regex_match ds' rest (mkDate (year f) v (day f))) cs
  | Dir_d :: ds' =>
      try_alternatives pattern_d
        (fun v rest => regex_match ds' rest (mkDate (year f) (month f) v)) cs
  end.

(** [datetime.strptime(text, fmt).date()]; [None] stands for the
    [ValueError] raised when the text does not match, when unconverted
    data remains, or when the fields are not a calendar date. *)
Definition strptime (text fmt : string) : option date :=
  match compile (list_ascii_of_string fmt) with
  | Some ds =>
      match regex_match ds (list_ascii_of_string text) (mkDate 1900 1 1) with
      | Some (f, []) =>
          if valid_date (year f) (month f) (day f) then Some f else None
      | _ => None
      end
  | None => None
  end.

End Calendar.

(** ** The data model *)

(** One stored expense, a dictionary with the keys ["id"], ["date"],
    ["title"], ["category"], ["amount"] and ["note"]. *)
Record ExpenseRecord : Type := mkRecord {
  r_id : Z;
  r_date : string;
  r_title : string;
  r_category : string;
  r_amount : Float.float;
  r_note : string
}.

(** ** Library functions whose text formats the program does not fix

    The serialisation of the [json] module and the grammar accepted by
    [datetime.fromisoformat] are behaviours of the Python runtime, not of
    the program; the program is modelled over any runtime.  [json_load]
    answers [None] where [json.load] raises [JSONDecodeError], and
    [fromisoformat] answers [None] where [datetime.fromisoformat] raises
    [ValueError]; of the parsed [datetime] only the calendar fields are
    kept, the program reads no other.  A document is read as an array of
    records of the data model: JSON text of another shape, which the
    program never writes, has no counterpart here. *)
Class PyLib : Type := {
  json_dump : list ExpenseRecord -> string;
  json_load : string -> option (list ExpenseRecord);
  fromisoformat : string -> option Calendar.date
}.

(** ** Exceptions, the report and the world *)

Inductive value_error : Type :=
| InvalidDateFormat                 (* raised by [parse_date] *)
| InvalidFloatLiteral (s : string)  (* raised by [float] *)
| InvalidIntLiteral (s : string)    (* raised by [int] on text *)
| InvalidIsoformat (s : string)     (* raised by [fromisoformat] *)
| NaNToInteger.                     (* raised by [int] on a NaN *)

Inductive exn : Type :=
| ValueError (why : value_error)
| ZeroDivisionError
| OverflowError
| EOFError.

Definition is_ValueError (e : exn) : bool :=
  match e with ValueError _ => true | _ => false end.

(** What the program writes to the console, one constructor per kind of
    [print] and one for the prompt of [input]. *)
Inductive line : Type :=
| Text (s : string)
| Prompt (s : string)
| InvalidInput (e : exn)
| ExpenseLine (date category : string) (amount : Float.float) (title note : string)
| TotalSpent (total : Float.float)
| SummaryFor (year month : Z)
| CategoryLine (cat : string) (amt pct : Float.float)
| TotalLine (total : Float.float).

Record world : Type := mkWorld {
  stdin : list string;          (* the lines still to be read *)
  stdout : list line;           (* what has been printed, oldest first *)
  db_file : option string;      (* the content of [DB_FILE], if it exists *)
  today : Calendar.date;        (* [datetime.today()] *)
  timestamp : Float.float       (* [datetime.now().timestamp()] *)
}.

Inductive result (A : Type) : Type :=
| Ok (a : A)
| Raise (e : exn).
Arguments Ok {A} a.
Arguments Raise {A} e.

(** A computation: it ends normally or with an exception, and in both
    cases leaves a world behind. *)
Definition M (A : Type) : Type := world -> result A * world.

Definition ret {A : Type} (a : A) : M A := fun w => (Ok a, w).

Definition raise {A : Type} (e : exn) : M A := fun w => (Raise e, w).

Definition bind {A B : Type} (m : M A) (k : A -> M B) : M B :=
  fun w =>
    match m w with
    | (Ok a, w') => k a w'
    | (Raise e, w') => (Raise e, w')
    end.

Notation "x <- c1 ;; c2" := (bind c1 (fun x => c2))
  (at level 61, c1 at next level, right associativity).
Notation "c1 ;; c2" := (bind c1 (fun _ => c2))
  (at level 61, right associativity).

(** [try: body except <catches>: handler] *)
Definition try_except {A : Type} (body : M A) (catches : exn -> bool)
    (handler : exn -> M A) : M A :=
  fun w =>
    match body w with
    | (Raise e, w') => if catches e then handler e w' else (Raise e, w')
    | r => r
    end.

Definition print (l : line) : M unit :=
  fun w => (Ok tt, mkWorld (stdin w) (stdout w ++ [l]) (db_file w) (today w) (timestamp w)).

(** [input(prompt)] *)
Definition input (prompt : string) : M string :=
  fun w =>
    let w' := mkWorld (tl (stdin w)) (stdout w ++ [Prompt prompt]) (db_file w)
                      (today w) (timestamp w) in
    match stdin w with
    | l :: _ => (Ok l, w')
    | [] => (Raise EOFError, w')
    end.

Definition read_db : M (option string) := fun w => (Ok (db_file w), w).

Definition write_db (text : string) : M unit :=
  fun w => (Ok tt, mkWorld (stdin w) (stdout w) (Some text) (today w) (timestamp w)).

Definition get_today : M Calendar.date := fun w => (Ok (today w), w).

Definition get_timestamp : M Float.float := fun w => (Ok (timestamp w), w).

(** [int(s)] and [float(s)] on text, [int(x)] on a float. *)
Definition int_of_text (s : string) : M Z :=
  match Text.py_int s with
  | Some n => ret n
  | None => raise (ValueError (InvalidIntLiteral s))
  end.

Definition float_of_text (s : string) : M Float.float :=
  match Float.py_float s with
  | Some x => ret x
  | None => raise (ValueError (InvalidFloatLiteral s))
  end.

Definition int_of_float (x : Float.float) : M Z :=
  match x with
  | S754_nan => raise (ValueError NaNToInteger)
  | S754_infinity _ => raise OverflowError
  | _ => ret (Float.trunc x)
  end.

Definition is_blank (s : string) : bool := (s =? "")%string.

(** ** [sorted(l, key=..., reverse=...)] on text keys

    The built-in sort is stable, and with [reverse=True] it still keeps
    equal keys in their original order: the list is reversed, sorted and
    reversed again. *)
Section Sorting.
Context {A : Type} (key : A -> string).

Fixpoint insert_by (x : A) (l : list A) : list A :=
  match l with
  | [] => [x]
  | y :: l' => if String.leb (key x) (key y) then x :: l else y :: insert_by x l'
  end.

Definition sort_by (l : list A) : list A := fold_right insert_by [] l.

Definition sorted (reverse : bool) (l : list A) : list A :=
  if reverse then rev (sort_by (rev l)) else sort_by l.
End Sorting.

(** ** A [dict] with text keys, in insertion order *)

Definition dict : Type := list (string * Float.float).

Fixpoint dict_get (d : dict) (k : string) (default : Float.float) : Float.float :=
  match d with
  | [] => default
  | (k', v) :: d' => if (k' =? k)%string then v else dict_get d' k default
  end.

(** [d[k] = v]: an existing key keeps its place. *)
Fixpoint dict_set (d : dict) (k : string) (v : Float.float) : dict :=
  match d with
  | [] => [(k, v)]
  | (k', v') :: d' =>
      if (k' =? k)%string then (k, v) :: d' else (k', v') :: dict_set d' k v
  end.

(** [sum(xs)]: accumulation from the integer [0], left to right, each
    addition rounded (the plain loop of the built-in, without the
    compensated summation of recent interpreters). *)
Definition py_sum (xs : list Float.float) : Float.float :=
  fold_left Float.add xs (Float.of_Z 0).

(** ** The program *)

Section Program.
Context {L : PyLib}.

(** *** Utility functions *)

Definition load_data : M (list ExpenseRecord) :=
  f <- read_db ;;
  match f with
  | Some text =>
      match json_load text with
      | Some data => ret data
      | None => ret []
      end
  | None => ret []
  end.

Definition save_data (data : list ExpenseRecord) : M unit :=
  write_db (json_dump data).

Definition date_formats : list string := ["%Y-%m-%d"; "%d-%m-%Y"; "%Y/%m/%d"].

(** The [for fmt in (...)] loop of [parse_date]: the first format that
    converts the text returns. *)
Fixpoint try_formats (text : string) (fmts : list string) : option Calendar.date :=
  match fmts with
  | fmt :: fmts' =>
      match Calendar.strptime text fmt with
      | Some d => Some d
      | None => try_formats text fmts'
      end
  | [] => None
  end.

Definition parse_date (text : string) : M Calendar.date :=
  match try_formats text date_formats with
  | Some d => ret d
  | None => raise (ValueError InvalidDateFormat)
  end.

(** *** Core features *)

Definition add_expense : M unit :=
  print (Text "--- Add Expense ---") ;;
  fields <-
    try_except
      (date_text <- input "Date (YYYY-MM-DD) [leave blank for today]: " ;;
       let date_text := Text.strip date_text in
       date <- (if is_blank date_text then get_today else parse_date date_text) ;;
       title <- input "Title: " ;;
       category <- input "Category: " ;;
       let category := Text.strip category in
       amount_text <- input "Amount: " ;;
       amount <- float_of_text (Text.strip amount_text) ;;
       note <- input "Note (optional): " ;;
       ret (Some (date, Text.strip title,
                  (if is_blank category then "Other" else category),
                  amount, Text.strip note)))
      is_ValueError
      (fun e => print (InvalidInput e) ;; ret None) ;;
  match fields with
  | None => ret tt
  | Some (date, title, category, amount, note) =>
      now <- get_timestamp ;;
      id <- int_of_float (Float.mul now (Float.of_Z 1000)) ;;
      let record :=
        mkRecord id (Calendar.isoformat date) title category amount note in
      data <- load_data ;;
      save_data (data ++ [record]) ;;
      print (Text "Expense added successfully!")
  end.

Definition expense_line (r : ExpenseRecord) : line :=
  ExpenseLine (r_date r) (r_category r) (r_amount r) (r_title r) (r_note r).

(** The [for r in sorted(...)] loop of [view_all]. *)
Fixpoint view_loop (rs : list ExpenseRecord) (total : Float.float) : M Float.float :=
  match rs with
  | r :: rs' =>
      print (expense_line r) ;;
      view_loop rs' (Float.add total (r_amount r))
  | [] => ret total
  end.

Definition view_all : M unit :=
  print (Text "--- All Expenses ---") ;;
  data <- load_data ;;
  match data with
  | [] => print (Text "No expenses yet.")
  | _ =>
      total <- view_loop (sorted r_date true data) (Float.of_Z 0) ;;
      print (TotalSpent total)
  end.

Definition date_of (s : string) : M Calendar.date :=
  match fromisoformat s with
  | Some d => ret d
  | None => raise (ValueError (InvalidIsoformat s))
  end.

(** The list comprehension of [monthly_summary]; [and] evaluates its
    second operand only when the first holds. *)
Fixpoint filter_month (year month : Z) (data : list ExpenseRecord)
  : M (list ExpenseRecord) :=
  match data with
  | r :: data' =>
      d <- date_of (r_date r) ;;
      keep <- (if Calendar.year d =? year
               then d' <- date_of (r_date r) ;; ret (Calendar.month d' =? month)
               else ret false) ;;
      rest <- filter_month year month data' ;;
      ret (if keep then r :: rest else rest)
  | [] => ret []
  end.

(** The [for r in filtered] loop that fills [by_cat]. *)
Definition group_by_category (filtered : list ExpenseRecord) : dict :=
  fold_left
    (fun by_cat r =>
       dict_set by_cat (r_category r)
         (Float.add (dict_get by_cat (r_category r) (Float.of_Z 0)) (r_amount r)))
    filtered [].

(** [amt/total*100] *)
Definition percentage (amt total : Float.float) : M Float.float :=
  match Float.truediv amt total with
  | Some q => ret (Float.mul q (Float.of_Z 100))
  | None => raise ZeroDivisionError
  end.

(** The [for cat, amt in by_cat.items()] loop. *)
Fixpoint category_loop (items : dict) (total : Float.float) : M unit :=
  match items with
  | (cat, amt) :: items' =>
      pct <- percentage amt total ;;
      print (CategoryLine cat amt pct) ;;
      category_loop items' total
  | [] => ret tt
  end.

Definition monthly_summary : M unit :=
  print (Text "--- Monthly Summary ---") ;;
  y <- input "Year (YYYY): " ;;
  let y := Text.strip y in
  m <- input "Month (1-12): " ;;
  let m := Text.strip m in
  today <- get_today ;;
  year <- (if is_blank y then ret (Calendar.year today) else int_of_text y) ;;
  month <- (if is_blank m then ret (Calendar.month today) else int_of_text m) ;;
  data <- load_data ;;
  filtered <- filter_month year month data ;;
  match filtered with
  | [] => print (Text "No records.")
  | _ =>
      let total := py_sum (map r_amount filtered) in
      let by_cat := group_by_category filtered in
      print (SummaryFor year month) ;;
      category_loop by_cat total ;;
      print (TotalLine total)
  end.

Definition delete : M unit :=
  print (Text "--- Delete Expense ---") ;;
  parsed <-
    try_except
      (text <- input "Enter ID: " ;;
       id_num <- int_of_text (Text.strip text) ;;
       ret (Some id_num))
      (fun _ => true)
      (fun _ => print (Text "Invalid ID.") ;; ret None) ;;
  match parsed with
  | None => ret tt
  | Some id_num =>
      data <- load_data ;;
      let new_data := filter (fun r => negb (r_id r =? id_num)) data in
      if Nat.eqb (List.length new_data) (List.length data)
      then print (Text "ID not found.")
      else save_data new_data ;; print (Text "Deleted successfully!")
  end.

End Program.

(** ** A reference runtime

    One runtime in which the program can be run: a JSON writer that lays
    a record array out as [json.dump(..., indent=2)] does, with the
    shortest decimal that reads back as the same float, a JSON reader for
    record arrays, and the calendar-date form [YYYY-MM-DD] of
    [fromisoformat].  It instantiates [PyLib] in the examples. *)

Module Json.

Definition quote : ascii := ascii_of_N 34.
Definition backslash : ascii := ascii_of_N 92.
Definition newline : ascii := ascii_of_N 10.

Definition chars (s : string) : list ascii := list_ascii_of_string s.

Definition digits_of (n : Z) : list ascii :=
  chars (NilEmpty.string_of_uint (N.to_uint (Z.to_N n))).

Definition write_int (n : Z) : list ascii :=
  if n <? 0 then "-"%char :: digits_of (- n)
  else if n =? 0 then ["0"%char] else digits_of n.

(** *** Writing *)

Definition hex (n : N) : ascii :=
  if (n <? 10)%N then ascii_of_N (48 + n) else ascii_of_N (87 + n).

(** Text is held in UTF-8.  [code_points] gives the characters of a text
    by their numbers; a byte that is not part of a well-formed character
    stands for itself. *)
Definition continuation (c : ascii) : option N :=
  let n := N_of_ascii c in
  if ((128 <=? n) && (n <? 192))%N then Some (n - 128)%N else None.

Fixpoint code_points (cs : list ascii) : list N :=
  match cs with
  | [] => []
  | a :: cs1 =>
      let x := N_of_ascii a in
      let stray := x :: code_points cs1 in
      if ((x <? 192) || (248 <=? x))%N then stray
      else
        match cs1 with
        | b :: cs2 =>
            match continuation b with
            | Some y =>
                if (x <? 224)%N then ((x - 192) * 64 + y)%N :: code_points cs2
                else
                  match cs2 with
                  | c :: cs3 =>
                      match continuation c with
                      | Some z =>
                          if (x <? 240)%N
                          then ((x - 224) * 4096 + y * 64 + z)%N :: code_points cs3
                          else
                            match cs3 with
                            | d :: cs4 =>
                                match continuation d with
                                | Some t =>
                                    ((x - 240) * 262144 + y * 4096 + z * 64 + t)%N
                                      :: code_points cs4
                                | None => stray
                                end
                            | [] => stray
                            end
                      | None => stray
                      end
                  | [] => stray
                  end
            | None => stray
            end
        | [] => stray
        end
  end.

(** The UTF-8 form of the character with the given number. *)
Definition utf8 (n : N) : list ascii :=
  if (n <? 128)%N then [ascii_of_N n]
  else if (n <? 2048)%N then [ascii_of_N (192 + n / 64); ascii_of_N (128 + n mod 64)]
  else if (n <? 65536)%N then
    [ascii_of_N (224 + n / 4096); ascii_of_N (128 + (n / 64) mod 64);
     ascii_of_N (128 + n mod 64)]
  else
    [ascii_of_N (240 + n / 262144); ascii_of_N (128 + (n / 4096) mod 64);
     ascii_of_N (128 + (n / 64) mod 64); ascii_of_N (128 + n mod 64)].

Definition escape_u (n : N) : list ascii :=
  [backslash; "u"%char; hex (n / 4096); hex ((n / 256) mod 16); hex ((n / 16) mod 16);
   hex (n mod 16)].

(** A character as [ensure_ascii] writes it: printable ASCII stands for
    itself, the others are escaped, those beyond the basic plane as a
    surrogate pair. *)
Definition escape (n : N) : list ascii :=
  if (n =? 34)%N then [backslash; quote]
  else if (n =? 92)%N then [backslash; backslash]
  else if (n =? 10)%N then [backslash; "n"%char]
  else if (n =? 13)%N then [backslash; "r"%char]
  else if (n =? 9)%N then [backslash; "t"%char]
  else if (n =? 8)%N then [backslash; "b"%char]
  else if (n =? 12)%N then [backslash; "f"%char]
  else if ((32 <=? n) && (n <=? 126))%N then [ascii_of_N n]
  else if (n <? 65536)%N then escape_u n
  else escape_u (55296 + (n - 65536) / 1024) ++ escape_u (56320 + (n - 65536) mod 1024).

Definition write_string (s : string) : list ascii :=
  quote :: flat_map escape (code_points (chars s)) ++ [quote].

(** [num / den < 10 ^ n] *)
Definition below_pow10 (num den n : Z) : bool :=
  if 0 <=? n then num <? den * 10 ^ n else num * 10 ^ (- n) <? den.

Fixpoint first_below (fuel : nat) (num den n : Z) : Z :=
  match fuel with
  | O => n
  | S fuel' => if below_pow10 num den n then n else first_below fuel' num den (n + 1)
  end.

(** The [decpt] with [10 ^ (decpt - 1) <= num / den < 10 ^ decpt]. *)
Definition decimal_point (num den : Z) : Z :=
  first_below 8 num den ((Z.log2 num - Z.log2 den) * 30103 / 100000 - 3).

Definition round_half_even (num den : Z) : Z :=
  let (q, r) := Z.div_eucl num den in
  match 2 * r ?= den with
  | Lt => q
  | Gt => q + 1
  | Eq => if Z.even q then q else q + 1
  end.

(** The decimal [q * 10 ^ k] with [p] digits nearest to [num / den]. *)
Definition to_precision (num den : Z) (p : Z) : Z * Z :=
  let k := decimal_point num den - p in
  let q := if 0 <=? k then round_half_even num (den * 10 ^ k)
           else round_half_even (num * 10 ^ (- k)) den in
  if q =? 10 ^ p then (10 ^ (p - 1), k + 1) else (q, k).

Fixpoint shortest (fuel : nat) (x : Float.float) (num den p : Z) : Z * Z :=
  let (q, k) := to_precision num den p in
  match fuel with
  | O => (q, k)
  | S fuel' =>
      match SFcompare (Float.of_decimal false q k) x with
      | Some Eq => (q, k)
      | _ => shortest fuel' x num den (p + 1)
      end
  end.

Fixpoint strip_zeros (rev_digits : list ascii) : list ascii :=
  match rev_digits with
  | c :: cs => if (c =? "0")%char then strip_zeros cs else rev_digits
  | [] => []
  end.

Definition zeros (n : Z) : list ascii := repeat "0"%char (Z.to_nat n).

(** [repr] of a positive finite float [m * 2 ^ e]. *)
Definition write_positive (m : positive) (e : Z) : list ascii :=
  let num := if 0 <=? e then Z.shiftl (Zpos m) e else Zpos m in
  let den := if 0 <=? e then 1 else Z.shiftl 1 (- e) in
  let (q, k) := shortest 16 (S754_finite false m e) num den 1 in
  let all := digits_of q in
  let decpt := Z.of_nat (List.length all) + k in
  let ds := match rev (strip_zeros (rev all)) with [] => ["0"%char] | l => l end in
  let n := Z.of_nat (List.length ds) in
  if (decpt <? -3) || (16 <? decpt) then
    let x := decpt - 1 in
    let ex := digits_of (Z.abs x) in
    firstn 1 ds
      ++ (match skipn 1 ds with [] => [] | fr => "."%char :: fr end)
      ++ ["e"%char; if x <? 0 then "-"%char else "+"%char]
      ++ (if Z.abs x <? 10 then "0"%char :: ex else ex)
  else if decpt <=? 0 then chars "0." ++ zeros (- decpt) ++ ds
  else if n <=? decpt then ds ++ zeros (decpt - n) ++ chars ".0"
  else firstn (Z.to_nat decpt) ds ++ "."%char :: skipn (Z.to_nat decpt) ds.

Definition write_float (x : Float.float) : list ascii :=
  match x with
  | S754_nan => chars "NaN"
  | S754_infinity s => chars (if s then "-Infinity" else "Infinity")
  | S754_zero s => chars (if s then "-0.0" else "0.0")
  | S754_finite s m e =>
      if s then "-"%char :: write_positive m e else write_positive m e
  end.

Definition member (key : string) (value : list ascii) (last : bool) : list ascii :=
  chars "    " ++ write_string key ++ chars ": " ++ value
    ++ (if last then [newline] else [","%char; newline]).

Definition write_record (r : ExpenseRecord) : list ascii :=
  chars "  {" ++ [newline]
    ++ member "id" (write_int (r_id r)) false
    ++ member "date" (write_string (r_date r)) false
    ++ member "title" (write_string (r_title r)) false
    ++ member "category" (write_string (r_category r)) false
    ++ member "amount" (write_float (r_amount r)) false
    ++ member "note" (write_string (r_note r)) true
    ++ chars "  }".

Fixpoint write_records (rs : list ExpenseRecord) : list ascii :=
  match rs with
  | [] => []
  | [r] => write_record r ++ [newline]
  | r :: rs' => write_record r ++ ","%char :: newline :: write_records rs'
  end.

Definition dump (data : list ExpenseRecord) : string :=
  match data with
  | [] => "[]"
  | _ => string_of_list_ascii ("["%char :: newline :: write_records data ++ ["]"%char])
  end.

(** *** Reading *)

(** What [json.loads] builds: [None], a [bool], an [int], a [float], a
    [str], a [list], or a [dict] with its keys in insertion order. *)
#[warnings="-register-all"]
Inductive value : Type :=
| VNull
| VBool (b : bool)
| VInt (n : Z)
| VFloat (x : Float.float)
| VStr (s : string)
| VArr (items : list value)
| VObj (members : list (string * value)).

(** The exceptions of [json.loads] other than [JSONDecodeError]. *)
Inductive error : Type :=
| IntegerTooLong   (* [ValueError]: an integer of more than 4300 digits *)
| TooDeep.         (* [RecursionError] *)

(** The outcome of reading one item at the front of a text: the item and
    the unread rest, [JSONDecodeError], or another exception. *)
Inductive outcome (A : Type) : Type :=
| Read (a : A) (rest : list ascii)
| Malformed
| Failed (e : error).
Arguments Read {A} a rest.
Arguments Malformed {A}.
Arguments Failed {A} e.

Fixpoint skip_ws (cs : list ascii) : list ascii :=
  match cs with
  | c :: cs' =>
      let n := N_of_ascii c in
      if ((n =? 32) || (n =? 9) || (n =? 10) || (n =? 13))%N then skip_ws cs' else cs
  | [] => []
  end.

Definition hex_val (c : ascii) : option N :=
  let n := N_of_ascii c in
  if ((48 <=? n) && (n <=? 57))%N then Some (n - 48)%N
  else if ((97 <=? n) && (n <=? 102))%N then Some (n - 87)%N
  else if ((65 <=? n) && (n <=? 70))%N then Some (n - 55)%N
  else None.

(** The number written by four hexadecimal digits. *)
Definition hex4 (a b c d : ascii) : option N :=
  match hex_val a, hex_val b, hex_val c, hex_val d with
  | Some x, Some y, Some z, Some t => Some (4096 * x + 256 * y + 16 * z + t)%N
  | _, _, _, _ => None
  end.

Definition unescape (c : ascii) : option ascii :=
  if (c =? quote)%char then Some quote
  else if (c =? backslash)%char then Some backslash
  else if (c =? "/")%char then Some "/"%char
  else if (c =? "n")%char then Some newline
  else if (c =? "r")%char then Some (ascii_of_N 13)
  else if (c =? "t")%char then Some (ascii_of_N 9)
  else if (c =? "b")%char then Some (ascii_of_N 8)
  else if (c =? "f")%char then Some (ascii_of_N 12)
  else None.

Definition high_surrogate (n : N) : bool := ((55296 <=? n) && (n <=? 56319))%N.
Definition low_surrogate (n : N) : bool := ((56320 <=? n) && (n <=? 57343))%N.

(** The text after an opening quote, up to the closing one; [acc] holds
    the bytes read so far, latest first.  A control character ends the
    reading; a [\u] escape gives the character of that number, a high
    surrogate joined with the low surrogate that follows it. *)
Fixpoint read_string (cs : list ascii) (acc : list ascii) : option (string * list ascii) :=
  match cs with
  | [] => None
  | c :: cs' =>
      if (c =? quote)%char then Some (string_of_list_ascii (rev acc), cs')
      else if (c =? backslash)%char then
        match cs' with
        | e :: cs'' =>
            if (e =? "u")%char then
              match cs'' with
              | a :: b :: c2 :: d :: rest =>
                  match hex4 a b c2 d with
                  | Some n =>
                      if high_surrogate n then
                        match rest with
                        | b1 :: u1 :: a' :: b' :: c' :: d' :: rest' =>
                            if (b1 =? backslash)%char && (u1 =? "u")%char then
                              match hex4 a' b' c' d' with
                              | Some m =>
                                  if low_surrogate m then
                                    read_string rest'
                                      (rev (utf8 (65536 + (n - 55296) * 1024 + (m - 56320)))
                                         ++ acc)
                                  else read_string rest (rev (utf8 n) ++ acc)
                              | None => None
                              end
                            else read_string rest (rev (utf8 n) ++ acc)
                        | _ => read_string rest (rev (utf8 n) ++ acc)
                        end
                      else read_string rest (rev (utf8 n) ++ acc)
                  | None => None
                  end
              | _ => None
              end
            else
              match unescape e with
              | Some x => read_string cs'' (x :: acc)
              | None => None
              end
        | [] => None
        end
      else if (N_of_ascii c <? 32)%N then None
      else read_string cs' (c :: acc)
  end.

Fixpoint span_digits (cs : list ascii) : list Z * list ascii :=
  match cs with
  | c :: cs' =>
      match Text.digit_val c with
      | Some d => let (ds, rest) := span_digits cs' in (d :: ds, rest)
      | None => ([], cs)
      end
  | [] => ([], [])
  end.

Fixpoint starts_with (word cs : list ascii) : option (list ascii) :=
  match word, cs with
  | [], _ => Some cs
  | w :: word', c :: cs' => if (w =? c)%char then starts_with word' cs' else None
  | _ :: _, [] => None
  end.

(** The integer part of a number: [0], or digits that do not start with
    [0]. *)
Definition read_integer (cs : list ascii) : option (list Z * list ascii) :=
  match cs with
  | c :: cs' =>
      match Text.digit_val c with
      | Some 0 => Some ([0], cs')
      | Some d => let (ds, rest) := span_digits cs' in Some (d :: ds, rest)
      | None => None
      end
  | [] => None
  end.

(** The fraction [.digits], if there is one. *)
Definition read_fraction (cs : list ascii) : list Z * list ascii :=
  match cs with
  | c :: cs' =>
      if (c =? ".")%char then
        match span_digits cs' with
        | ([], _) => ([], cs)
        | (fp, rest) => (fp, rest)
        end
      else ([], cs)
  | [] => ([], [])
  end.

(** The exponent [(e|E)(+|-)?digits], if there is one. *)
Definition read_exponent (cs : list ascii) : option Z * list ascii :=
  match cs with
  | c :: cs' =>
      if (c =? "e")%char || (c =? "E")%char then
        let (neg, body) := Text.sign cs' in
        match span_digits body with
        | ([], _) => (None, cs)
        | (ds, rest) => (Some (if neg then - Text.decimal ds else Text.decimal ds), rest)
        end
      else (None, cs)
  | [] => (None, [])
  end.

(** The digit limit of [int] on text. *)
Definition max_str_digits : nat := 4300.

(** A number: an optional minus and an integer part, read as an [int]
    when neither a fraction nor an exponent follows and as a [float]
    otherwise. *)
Definition read_number (cs : list ascii) : outcome value :=
  let (neg, body) :=
    match cs with
    | c :: cs' => if (c =? "-")%char then (true, cs') else (false, cs)
    | [] => (false, [])
    end in
  match read_integer body with
  | None => Malformed
  | Some (ip, rest) =>
      let (fp, rest1) := read_fraction rest in
      let (ex, rest2) := read_exponent rest1 in
      match fp, ex with
      | [], None =>
          if (max_str_digits <? List.length ip)%nat then Failed IntegerTooLong
          else Read (VInt (if neg then - Text.decimal ip else Text.decimal ip)) rest2
      | _, _ =>
          let e := match ex with Some e => e | None => 0 end in
          Read (VFloat (Float.of_decimal neg (Text.decimal (ip ++ fp))
                          (e - Z.of_nat (List.length fp)))) rest2
      end
  end.

(** A value that is neither a text, an array nor an object. *)
Definition read_scalar (cs : list ascii) : outcome value :=
  match starts_with (chars "null") cs, starts_with (chars "true") cs,
        starts_with (chars "false") cs with
  | Some rest, _, _ => Read VNull rest
  | _, Some rest, _ => Read (VBool true) rest
  | _, _, Some rest => Read (VBool false) rest
  | None, None, None =>
      match starts_with (chars "NaN") cs, starts_with (chars "Infinity") cs,
            starts_with (chars "-Infinity") cs with
      | Some rest, _, _ => Read (VFloat S754_nan) rest
      | _, Some rest, _ => Read (VFloat (S754_infinity false)) rest
      | _, _, Some rest => Read (VFloat (S754_infinity true)) rest
      | None, None, None => read_number cs
      end
  end.

(** [d[k] = v] on the members of an object: a key that is already there
    keeps its place and takes the new value. *)
Fixpoint set_member (ms : list (string * value)) (k : string) (v : value)
  : list (string * value) :=
  match ms with
  | [] => [(k, v)]
  | (k', v') :: ms' =>
      if (k' =? k)%string then (k, v) :: ms' else (k', v') :: set_member ms' k v
  end.

Section Containers.
Variable read_value : list ascii -> outcome value.

(** The items of an array, from the first one up to the closing bracket;
    the items read so far are kept latest first. *)
Fixpoint read_items (fuel : nat) (cs : list ascii) (acc : list value)
  : outcome (list value) :=
  match fuel with
  | O => Malformed
  | S fuel' =>
      match read_value cs with
      | Read v rest =>
          match skip_ws rest with
          | c :: rest' =>
              if (c =? "]")%char then Read (rev (v :: acc)) rest'
              else if (c =? ",")%char then read_items fuel' (skip_ws rest') (v :: acc)
              else Malformed
          | [] => Malformed
          end
      | Malformed => Malformed
      | Failed e => Failed e
      end
  end.

(** The members of an object, from the text after the opening quote of
    the first key up to the closing brace. *)
Fixpoint read_members (fuel : nat) (cs : list ascii) (acc : list (string * value))
  : outcome (list (string * value)) :=
  match fuel with
  | O => Malformed
  | S fuel' =>
      match read_string cs [] with
      | Some (key, cs1) =>
          match skip_ws cs1 with
          | colon :: cs2 =>
              if (colon =? ":")%char then
                match read_value (skip_ws cs2) with
                | Read v cs3 =>
                    match skip_ws cs3 with
                    | sep :: cs4 =>
                        if (sep =? "}")%char then Read (set_member acc key v) cs4
                        else if (sep =? ",")%char then
                          match skip_ws cs4 with
                          | q :: cs5 =>
                              if (q =? quote)%char
                              then read_members fuel' cs5 (set_member acc key v)
                              else Malformed
                          | [] => Malformed
                          end
                        else Malformed
                    | [] => Malformed
                    end
                | Malformed => Malformed
                | Failed e => Failed e
                end
              else Malformed
          | [] => Malformed
          end
      | None => Malformed
      end
  end.

End Containers.

(** One value at the front of the text.  [depth] is the number of arrays
    and objects that may still be entered, one inside the other, before
    the interpreter's recursion limit is reached. *)
Fixpoint read_value (depth : nat) (cs : list ascii) : outcome value :=
  match cs with
  | c :: cs' =>
      if (c =? quote)%char then
        match read_string cs' [] with
        | Some (s, rest) => Read (VStr s) rest
        | None => Malformed
        end
      else if (c =? "{")%char then
        match depth with
        | O => Failed TooDeep
        | S depth' =>
            match skip_ws cs' with
            | q :: cs'' =>
                if (q =? quote)%char then
                  match read_members (read_value depth') (List.length cs'') cs'' [] with
                  | Read ms rest => Read (VObj ms) rest
                  | Malformed => Malformed
                  | Failed e => Failed e
                  end
                else if (q =? "}")%char then Read (VObj []) cs''
                else Malformed
            | [] => Malformed
            end
        end
      else if (c =? "[")%char then
        match depth with
        | O => Failed TooDeep
        | S depth' =>
            match skip_ws cs' with
            | q :: cs'' =>
                if (q =? "]")%char then Read (VArr []) cs''
                else
                  match read_items (read_value depth') (List.length cs') (skip_ws cs') [] with
                  | Read items rest => Read (VArr items) rest
                  | Malformed => Malformed
                  | Failed e => Failed e
                  end
            | [] => Malformed
            end
        end
      else read_scalar cs
  | [] => Malformed
  end.

(** The nesting that is left for [json.load] where [load_data] calls it
    from a command of the menu, under the default recursion limit of
    1000. *)
Definition recursion_limit : nat := 991.

(** The outcome of [json.loads]. *)
Inductive parsed : Type :=
| Parsed (v : value)
| JSONDecodeError
| Raised (e : error).

(** [json.loads(text)]: one value, with white space around it and nothing
    else. *)
Definition loads (text : string) : parsed :=
  match read_value recursion_limit (skip_ws (chars text)) with
  | Read v rest =>
      match skip_ws rest with
      | [] => Parsed v
      | _ => JSONDecodeError
      end
  | Malformed => JSONDecodeError
  | Failed e => Raised e
  end.

(** *** Records of the data model among the values *)

Fixpoint lookup (ms : list (string * value)) (key : string) : option value :=
  match ms with
  | (k, v) :: ms' => if (k =? key)%string then Some v else lookup ms' key
  | [] => None
  end.

Definition known_key (k : string) : bool :=
  existsb (String.eqb k) ["id"; "date"; "title"; "category"; "amount"; "note"].

(** The record that a [dict] with exactly the six keys of the data model
    stands for. *)
Definition to_record (v : value) : option ExpenseRecord :=
  match v with
  | VObj ms =>
      if forallb (fun kv => known_key (fst kv)) ms then
        match lookup ms "id", lookup ms "date", lookup ms "title",
              lookup ms "category", lookup ms "amount", lookup ms "note" with
        | Some (VInt i), Some (VStr d), Some (VStr t), Some (VStr c), Some (VFloat a),
          Some (VStr n) => Some (mkRecord i d t c a n)
        | _, _, _, _, _, _ => None
        end
      else None
  | _ => None
  end.

Fixpoint to_records_list (items : list value) : option (list ExpenseRecord) :=
  match items with
  | [] => Some []
  | v :: items' =>
      match to_record v, to_records_list items' with
      | Some r, Some rs => Some (r :: rs)
      | _, _ => None
      end
  end.

(** The record array that a value stands for, if it is one. *)
Definition to_records (v : value) : option (list ExpenseRecord) :=
  match v with
  | VArr items => to_records_list items
  | _ => None
  end.

(** The [dict] that [add_expense] builds for a record, and the [list] of
    a collection. *)
Definition of_record (r : ExpenseRecord) : value :=
  VObj [("id", VInt (r_id r)); ("date", VStr (r_date r)); ("title", VStr (r_title r));
        ("category", VStr (r_category r)); ("amount", VFloat (r_amount r));
        ("note", VStr (r_note r))].

Definition of_records (data : list ExpenseRecord) : value := VArr (map of_record data).

(** A whole document read as a record array; [None] where the text is not
    JSON, and also where it is JSON that the data model does not cover. *)
Definition load (text : string) : option (list ExpenseRecord) :=
  match loads text with
  | Parsed v => to_records v
  | _ => None
  end.

End Json.

(** *** [datetime.fromisoformat]

    The function as CPython 3.11 implements it, on the UTF-8 form of the
    text: a date in one of the forms [YYYY-MM-DD], [YYYYMMDD], [YYYY-Www],
    [YYYYWww], [YYYY-Www-D], [YYYYWwwD], then nothing or one separating
    character and a time of day with an optional offset.  The text is read
    by position; [byte_at] answers 0, the terminator of the text, past its
    end. *)

Module Iso.

Definition byte_at (buf : list ascii) (i : nat) : N :=
  match nth_error buf i with
  | Some c => N_of_ascii c
  | None => 0%N
  end.

Definition is_digit (c : N) : bool := ((48 <=? c) && (c <=? 57))%N.

Definition dash : N := 45%N.
Definition letter_W : N := 87%N.
Definition letter_Z : N := 90%N.
Definition plus : N := 43%N.
Definition colon : N := 58%N.
Definition dot : N := 46%N.
Definition comma : N := 44%N.

(** [num_digits] digits from position [p]: their value, added to [var]
    shifted, and the position after them. *)
Fixpoint parse_digits (buf : list ascii) (p : nat) (num_digits : nat) (var : Z)
  : option (Z * nat) :=
  match num_digits with
  | O => Some (var, p)
  | S k =>
      let c := byte_at buf p in
      if is_digit c then parse_digits buf (S p) k (10 * var + (Z.of_N c - 48))
      else None
  end.

(** The first position from [idx] on, below [len], that holds no digit. *)
Fixpoint digits_end (fuel : nat) (buf : list ascii) (idx len : nat) : nat :=
  match fuel with
  | O => idx
  | S fuel' =>
      if (idx <? len)%nat && is_digit (byte_at buf idx)
      then digits_end fuel' buf (S idx) len
      else idx
  end.

(** Where the date ends: the forms of a date are told apart by the
    characters at positions 4 and 5. *)
Definition find_separator (buf : list ascii) (len : nat) : option nat :=
  if (len =? 7)%nat then Some 7%nat
  else if (byte_at buf 4 =? dash)%N then
    if (byte_at buf 5 =? letter_W)%N then
      if (len <? 8)%nat then None
      else if (8 <? len)%nat && (byte_at buf 8 =? dash)%N then
        if (len =? 9)%nat then None
        else if (10 <? len)%nat && is_digit (byte_at buf 10) then Some 8%nat
        else Some 10%nat
      else Some 8%nat
    else Some 10%nat
  else if (byte_at buf 4 =? letter_W)%N then
    let idx := digits_end len buf 7 len in
    if (idx <? 9)%nat then Some idx
    else if Nat.even idx then Some 7%nat else Some 8%nat
  else Some 8%nat.

Definition days_before_year (year : Z) : Z :=
  let y := year - 1 in y * 365 + y / 4 - y / 100 + y / 400.

(** The day number of the first of January, the first of January of year
    1 being day 1. *)
Definition new_year (year : Z) : Z := days_before_year year + 1.

Fixpoint month_and_day (fuel : nat) (year month n : Z) : Calendar.date :=
  match fuel with
  | O => Calendar.mkDate year month (n + 1)
  | S fuel' =>
      let dim := Calendar.days_in_month year month in
      if n <? dim then Calendar.mkDate year month (n + 1)
      else month_and_day fuel' year (month + 1) (n - dim)
  end.

(** The date of a day number. *)
Definition ord_to_ymd (ordinal : Z) : Calendar.date :=
  let n := ordinal - 1 in
  let n400 := n / 146097 in
  let n := n mod 146097 in
  let n100 := n / 36524 in
  let n := n mod 36524 in
  let n4 := n / 1461 in
  let n := n mod 1461 in
  let n1 := n / 365 in
  let n := n mod 365 in
  let year := n400 * 400 + 1 + n100 * 100 + n4 * 4 + n1 in
  if (n1 =? 4) || (n100 =? 4) then Calendar.mkDate (year - 1) 12 31
  else month_and_day 11 year 1 n.

(** The day number of the Monday that starts week 1 of the ISO year. *)
Definition iso_week1_monday (year : Z) : Z :=
  let first_day := new_year year in
  let first_weekday := (first_day + 6) mod 7 in
  let week1_monday := first_day - first_weekday in
  if 3 <? first_weekday then week1_monday + 7 else week1_monday.

(** The date of a day of an ISO week; week 53 exists in the years that
    start on a Thursday and in the leap years that start on a Wednesday. *)
Definition iso_to_ymd (iso_year iso_week iso_day : Z) : option Calendar.date :=
  let first_weekday := (new_year iso_year + 6) mod 7 in
  let week_ok :=
    ((0 <? iso_week) && (iso_week <? 53))
    || ((iso_week =? 53)
        && ((first_weekday =? 3)
            || ((first_weekday =? 2) && Calendar.is_leap iso_year))) in
  if (1 <=? iso_year) && week_ok && (0 <? iso_day) && (iso_day <? 8)
  then Some (ord_to_ymd (iso_week1_monday iso_year + (iso_week - 1) * 7 + iso_day - 1))
  else None.

(** The date at the front of the text, [len] being where it ends. *)
Definition parse_isoformat_date (buf : list ascii) (len : nat) : option Calendar.date :=
  match parse_digits buf 0 4 0 with
  | None => None
  | Some (year, p) =>
      let uses_separator := (byte_at buf p =? dash)%N in
      let p := if uses_separator then S p else p in
      if (byte_at buf p =? letter_W)%N then
        match parse_digits buf (S p) 2 0 with
        | None => None
        | Some (iso_week, p) =>
            if (p <? len)%nat then
              if uses_separator && negb (byte_at buf p =? dash)%N then None
              else
                match parse_digits buf (if uses_separator then S p else p) 1 0 with
                | None => None
                | Some (iso_day, _) => iso_to_ymd year iso_week iso_day
                end
            else iso_to_ymd year iso_week 1
        end
      else
        match parse_digits buf p 2 0 with
        | None => None
        | Some (month, p) =>
            if uses_separator && negb (byte_at buf p =? dash)%N then None
            else
              match parse_digits buf (if uses_separator then S p else p) 2 0 with
              | None => None
              | Some (day, _) => Some (Calendar.mkDate year month day)
              end
        end
  end.

(** The outcome of reading hours, minutes, seconds and a fraction:
    [unread] tells that the reading stopped before the terminator. *)
Record clock : Type := mkClock {
  fields : list Z;
  microsecond : Z;
  unread : bool
}.

(** The fraction of a second from position [p]: at most six digits are
    counted, further digits are skipped. *)
Definition parse_fraction (buf : list ascii) (p p_end : nat) (vals : list Z)
  : option clock :=
  let len_remains := (p_end - p)%nat in
  let to_parse := Nat.min 6 len_remains in
  match parse_digits buf p to_parse 0 with
  | None => None
  | Some (us, p) =>
      let us := us * 10 ^ Z.of_nat (6 - to_parse) in
      let p := digits_end (List.length buf) buf p (S (List.length buf)) in
      Some (mkClock vals us (negb (byte_at buf p =? 0)%N))
  end.

(** [HH], [HH:MM], [HHMM], [HH:MM:SS], [HHMMSS], between positions [p]
    and [p_end]; [count] fields are still to be read, and [i] have been. *)
Fixpoint parse_hh_mm_ss_ff (count : nat) (buf : list ascii) (i : nat)
    (has_separator : bool) (p p_end : nat) (vals : list Z) : option clock :=
  match count with
  | O => parse_fraction buf p p_end vals
  | S count' =>
      match parse_digits buf p 2 0 with
      | None => None
      | Some (v, p1) =>
          let c := byte_at buf p1 in
          let p2 := S p1 in
          let has_separator := if (i =? 0)%nat then (c =? colon)%N else has_separator in
          let vals := vals ++ [v] in
          if (p_end <=? p2)%nat then Some (mkClock vals 0 (negb (c =? 0)%N))
          else if has_separator && (c =? colon)%N
          then parse_hh_mm_ss_ff count' buf (S i) has_separator p2 p_end vals
          else if (c =? dot)%N || (c =? comma)%N then parse_fraction buf p2 p_end vals
          else if negb has_separator
          then parse_hh_mm_ss_ff count' buf (S i) has_separator p1 p_end vals
          else None
      end
  end.

(** The first position from [p] on that holds [Z], [+] or [-]; the
    character at [p] is looked at even when [p] is the end. *)
Fixpoint find_tz (fuel : nat) (buf : list ascii) (p p_end : nat) : nat :=
  match fuel with
  | O => p
  | S fuel' =>
      let c := byte_at buf p in
      if (c =? letter_Z)%N || (c =? plus)%N || (c =? dash)%N then p
      else if (S p <? p_end)%nat then find_tz fuel' buf (S p) p_end
      else S p
  end.

Definition field (vals : list Z) (i : nat) : Z := nth i vals 0.

(** The fields of a time of day are in range. *)
Definition valid_time (c : clock) : bool :=
  (field (fields c) 0 <=? 23) && (field (fields c) 1 <=? 59)
  && (field (fields c) 2 <=? 59).

(** An offset is strictly between minus and plus 24 hours; its fields are
    not checked one by one. *)
Definition valid_offset (c : clock) : bool :=
  (field (fields c) 0 * 3600 + field (fields c) 1 * 60 + field (fields c) 2) * 1000000
    + microsecond c <? 86400 * 1000000.

(** The time of day from position [p] to the end [p_end] of the text is
    well formed. *)
Definition parse_isoformat_time (buf : list ascii) (p p_end : nat) : bool :=
  let tzinfo_pos := find_tz (S (List.length buf)) buf p p_end in
  match parse_hh_mm_ss_ff 3 buf 0 true p tzinfo_pos [] with
  | None => false
  | Some time =>
      valid_time time
      && if (tzinfo_pos =? p_end)%nat then negb (unread time)
         else if (byte_at buf tzinfo_pos =? letter_Z)%N
         then (byte_at buf (S tzinfo_pos) =? 0)%N
         else
           match parse_hh_mm_ss_ff 3 buf 0 true (S tzinfo_pos) p_end [] with
           | None => false
           | Some offset =>
               negb (unread offset)
               && valid_offset offset
           end
  end.

(** The number of bytes of the character that starts with the byte [c]. *)
Definition char_width (c : N) : nat :=
  if (c <? 128)%N then 1
  else if (224 <=? c)%N && (c <? 240)%N then 3
  else if (240 <=? c)%N then 4
  else 2.

(** [datetime.fromisoformat(s)], of which the program reads the year and
    the month; [None] stands for the [ValueError] it raises. *)
Definition fromisoformat (s : string) : option Calendar.date :=
  let buf := list_ascii_of_string s in
  let len := List.length buf in
  if (len <? 7)%nat then None
  else
    match find_separator buf len with
    | None => None
    | Some separator_location =>
        match parse_isoformat_date buf separator_location with
        | None => None
        | Some d =>
            if Calendar.valid_date (Calendar.year d) (Calendar.month d) (Calendar.day d)
            then
              if (separator_location <? len)%nat then
                let p := (separator_location
                          + char_width (byte_at buf separator_location))%nat in
                if parse_isoformat_time buf p len then Some d else None
              else Some d
            else None
        end
    end.

End Iso.

Definition reference_lib : PyLib :=
  {| json_dump := Json.dump; json_load := Json.load; fromisoformat := Iso.fromisoformat |}.

(** A valid ISO calendar-date string, in the words of the specification:
    the year, month and day of a date that exists, written [YYYY-MM-DD]
    or, in the basic form of the standard, [YYYYMMDD]. *)
Definition iso_calendar_date (s : string) : option Calendar.date :=
  let digit := Text.digit_val in
  let date a b c d e f g h :=
    match digit a, digit b, digit c, digit d, digit e, digit f, digit g, digit h with
    | Some a, Some b, Some c, Some d, Some e, Some f, Some g, Some h =>
        let y := 1000 * a + 100 * b + 10 * c + d in
        let m := 10 * e + f in
        let dd := 10 * g + h in
        if Calendar.valid_date y m dd then Some (Calendar.mkDate y m dd) else None
    | _, _, _, _, _, _, _, _ => None
    end in
  match list_ascii_of_string s with
  | [y1; y2; y3; y4; s1; m1; m2; s2; d1; d2] =>
      if (s1 =? "-")%char && (s2 =? "-")%char then date y1 y2 y3 y4 m1 m2 d1 d2 else None
  | [y1; y2; y3; y4; m1; m2; d1; d2] => date y1 y2 y3 y4 m1 m2 d1 d2
  | _ => None
  end.

(** ** Notions used to state the properties *)

Section Observations.
Context {L : PyLib}.

(** The collection held by the store: what [load_data] answers. *)
Definition stored (w : world) : list ExpenseRecord :=
  match db_file w with
  | Some text =>
      match json_load text with
      | Some data => data
      | None => []
      end
  | None => []
  end.

(** The record's date falls in the given year and month. *)
Definition in_month (year month : Z) (r : ExpenseRecord) : bool :=
  match fromisoformat (r_date r) with
  | Some d => (Calendar.year d =? year) && (Calendar.month d =? month)
  | None => false
  end.

Definition valid_dates (data : list ExpenseRecord) : Prop :=
  forall r, In r data -> fromisoformat (r_date r) <> None.
End Observations.

Section Order.
Context {A : Type} (key : A -> string).

(** [a] may stand before [b] in ascending order, in descending order. *)
Definition ascending (a b : A) : Prop := String.leb (key a) (key b) = true.
Definition descending (a b : A) : Prop := String.leb (key b) (key a) = true.

(** The elements whose key is [k]. *)
Definition with_key (k : string) (l : list A) : list A :=
  filter (fun a => (key a =? k)%string) l.

End Order.

(** The test of the list comprehension of [delete]. *)
Definition other_id (id_num : Z) (r : ExpenseRecord) : bool := negb (r_id r =? id_num).

(** The world after a command that read its input down to [rest], printed
    [out] and left the backing file as [file]. *)
Definition after (w : world) (rest : list string) (out : list line)
    (file : option string) : world :=
  mkWorld rest (stdout w ++ out) file (today w) (timestamp w).

(** The year or month a blank or numeric input stands for. *)
Definition chosen (text : string) (current : Z) : option Z :=
  if is_blank (Text.strip text) then Some current else Text.py_int (Text.strip text).

(** The distinct elements of a list in the order in which they first
    occur. *)
Fixpoint first_seen (l : list string) : list string :=
  match l with
  | [] => []
  | x :: l' => x :: filter (fun y => negb (y =? x)%string) (first_seen l')
  end.

Definition of_category (cat : string) (r : ExpenseRecord) : bool :=
  (r_category r =? cat)%string.

(** The sum of the amounts of the records of one category. *)
Definition subtotal (rs : list ExpenseRecord) (cat : string) : Float.float :=
  py_sum (map r_amount (filter (of_category cat) rs)).

(** Category to sum of amount, in first-seen category order. *)
Definition subtotals (rs : list ExpenseRecord) : dict :=
  map (fun cat => (cat, subtotal rs cat)) (first_seen (map r_category rs)).

Definition category_line (total : Float.float) (item : string * Float.float) : line :=
  CategoryLine (fst item) (snd item)
    (Float.mul (SFdiv Float.prec Float.emax (snd item) total) (Float.of_Z 100)).

(** The three records of the specification's example. *)
Definition example_records : list ExpenseRecord :=
  [ mkRecord 1 "2024-01-05" "" "Food" (Float.of_Z 10) "";
    mkRecord 2 "2024-01-20" "" "Food" (Float.of_Z 20) "";
    mkRecord 3 "2024-02-01" "" "Transport" (Float.of_Z 5) "" ].

(** A world of the reference runtime: the given console input, nothing
    printed yet, the given backing file, and a clock stopped on
    2024-03-15 at 1710500000.123456 seconds. *)
Definition example_world (input : list string) (file : option string) : world :=
  mkWorld input [] file (Calendar.mkDate 2024 3 15)
          (Float.of_decimal false 1710500000123456 (-6)).

Definition example_store : option string := Some (Json.dump example_records).

(** ** The remaining commands: [search], [export_csv] and [menu] *)

(** [s.lower()] on a text held as bytes: the letters A to Z are put in
    lower case, every other byte is left as it is. *)
Definition lower (s : string) : string :=
  string_of_list_ascii (map Float.lower (list_ascii_of_string s)).

(** [q in s]: [q] occurs in [s] as a run of consecutive characters. *)
Fixpoint contains (q s : string) : bool :=
  String.prefix q s
  || match s with
     | String _ s' => contains q s'
     | EmptyString => false
     end.

(** [str(x)] for a float: the shortest decimal that reads back as [x]. *)
Definition float_str (x : Float.float) : string :=
  match x with
  | S754_nan => "nan"
  | S754_infinity s => if s then "-inf" else "inf"
  | _ => string_of_list_ascii (Json.write_float x)
  end.

(** The rupee sign of the source, as the three bytes of its UTF-8 form. *)
Definition rupee : string :=
  String (ascii_of_N 226) (String (ascii_of_N 130) (String (ascii_of_N 185) "")).

(** The line [search] prints for a record. *)
Definition search_line (r : ExpenseRecord) : line :=
  Text (r_date r ++ " | " ++ r_category r ++ " | " ++ r_title r ++ " | "
          ++ rupee ++ float_str (r_amount r))%string.

(** The test of the list comprehension of [search]. *)
Definition matches (q : string) (r : ExpenseRecord) : bool :=
  contains q (lower (r_title r)) || contains q (lower (r_category r))
  || contains q (r_date r).

(** *** Rows of [csv.writer] in its default dialect *)

Module Csv.

Definition needs_quotes (c : ascii) : bool :=
  (c =? ",")%char || (c =? Json.quote)%char
  || (N_of_ascii c =? 13)%N || (N_of_ascii c =? 10)%N.

(** A quote inside a field is doubled. *)
Definition double_quotes (cs : list ascii) : list ascii :=
  flat_map (fun c => if (c =? Json.quote)%char then [c; c] else [c]) cs.

(** A field is put between quotes when it holds a comma, a quote, a
    carriage return or a line feed. *)
Definition field (s : string) : list ascii :=
  let cs := list_ascii_of_string s in
  if existsb needs_quotes cs
  then Json.quote :: double_quotes cs ++ [Json.quote]
  else cs.

Fixpoint join (fields : list (list ascii)) : list ascii :=
  match fields with
  | [] => []
  | [f] => f
  | f :: fields' => f ++ ","%char :: join fields'
  end.

(** [writer.writerow(fields)]: the fields, separated by commas, and the
    line terminator CR LF. *)
Definition row (fields : list string) : string :=
  string_of_list_ascii (join (map field fields) ++ [ascii_of_N 13; ascii_of_N 10]).

End Csv.

(** [str(n)] for an integer. *)
Definition int_str (n : Z) : string := string_of_list_ascii (Json.write_int n).

Definition csv_header : list string :=
  ["id"; "date"; "title"; "category"; "amount"; "note"].

Definition csv_fields (r : ExpenseRecord) : list string :=
  [int_str (r_id r); r_date r; r_title r; r_category r; float_str (r_amount r);
   r_note r].

(** *** The world of the whole program

    [export_csv] writes a second file.  A session is a world of the
    commands above together with the content of the export file, if it
    exists; the commands above run in a session without touching that
    file. *)
Definition session : Type := world * option string.

Definition P (A : Type) : Type := session -> result A * session.

Definition lift {A : Type} (m : M A) : P A :=
  fun s => let (r, w') := m (fst s) in (r, (w', snd s)).

Definition then_ {A B : Type} (m : P A) (k : A -> P B) : P B :=
  fun s =>
    match m s with
    | (Ok a, s') => k a s'
    | (Raise e, s') => (Raise e, s')
    end.

Notation "x <-- c1 ;;; c2" := (then_ c1 (fun x => c2))
  (at level 61, c1 at next level, right associativity).
Notation "c1 ;;; c2" := (then_ c1 (fun _ => c2))
  (at level 61, right associativity).

(** [open(fname, "w", newline='')] followed by the writes and the close:
    the export file is replaced by [text]. *)
Definition write_export (text : string) : P unit :=
  fun s => (Ok tt, (fst s, Some text)).

Section MoreOfTheProgram.
Context {L : PyLib}.

(** The [for r in result] loop of [search]. *)
Fixpoint search_loop (result : list ExpenseRecord) : M unit :=
  match result with
  | r :: result' => print (search_line r) ;; search_loop result'
  | [] => ret tt
  end.

Definition search : M unit :=
  print (Text "--- Search ---") ;;
  q <- input "Search text: " ;;
  let q := lower (Text.strip q) in
  data <- load_data ;;
  let result := filter (matches q) data in
  match result with
  | [] => print (Text "No match.")
  | _ => search_loop result
  end.

(** The rows written by [export_csv]: the header, then one row per record
    in the order of the collection. *)
Definition csv_text (data : list ExpenseRecord) : string :=
  String.concat "" (Csv.row csv_header :: map (fun r => Csv.row (csv_fields r)) data).

Definition export_csv : P unit :=
  lift (print (Text "--- Export CSV ---")) ;;;
  data <-- lift load_data ;;;
  match data with
  | [] => lift (print (Text "No data to export."))
  | _ =>
      write_export (csv_text data) ;;;
      lift (print (Text "Exported to expenses_export.csv"))
  end.

Definition print_menu : M unit :=
  print (Text "=== Smart Expense Tracker ===") ;;
  print (Text "1. Add Expense") ;;
  print (Text "2. View All Expenses") ;;
  print (Text "3. Monthly Summary") ;;
  print (Text "4. Search") ;;
  print (Text "5. Delete Expense") ;;
  print (Text "6. Export CSV") ;;
  print (Text "7. Exit").

(** The [while True] loop of [menu].  Every turn reads one line, so the
    loop makes at most as many full turns as there are lines of input, and
    one more that ends at the end of the input; [fuel] bounds the number of
    turns. *)
Fixpoint menu_loop (fuel : nat) : P unit :=
  match fuel with
  | O => fun s => (Ok tt, s)
  | S fuel' =>
      lift print_menu ;;;
      choice <-- lift (input "Choose 1-7: ") ;;;
      let choice := Text.strip choice in
      if (choice =? "1")%string then lift add_expense ;;; menu_loop fuel'
      else if (choice =? "2")%string then lift view_all ;;; menu_loop fuel'
      else if (choice =? "3")%string then lift monthly_summary ;;; menu_loop fuel'
      else if (choice =? "4")%string then lift search ;;; menu_loop fuel'
      else if (choice =? "5")%string then lift delete ;;; menu_loop fuel'
      else if (choice =? "6")%string then export_csv ;;; menu_loop fuel'
      else if (choice =? "7")%string then lift (print (Text "Goodbye!"))
      else lift (print (Text "Invalid choice.")) ;;; menu_loop fuel'
  end.

Definition menu : P unit :=
  fun s => menu_loop (S (List.length (stdin (fst s)))) s.

End MoreOfTheProgram.

(** A command keeps a relation between worlds when the world it leaves is
    related to the world it started in, however it ends; likewise for
    sessions. *)
Definition keeps (R : world -> world -> Prop) {A : Type} (m : M A) : Prop :=
  forall w, R w (snd (m w)).

Definition keeps_session (Rs : session -> session -> Prop) {A : Type} (m : P A) : Prop :=
  forall s, Rs s (snd (m s)).

(** The console only moves forward: input is taken from the front, output
    is added at the end, and the clock is not touched. *)
Definition console_advances (w w' : world) : Prop :=
  (exists read, stdin w = read ++ stdin w')
  /\ (exists out, stdout w' = stdout w ++ out)
  /\ today w' = today w /\ timestamp w' = timestamp w.

(** The backing file is as it was, or holds the serialisation of a
    collection. *)
Definition store_saved {L : PyLib} (w w' : world) : Prop :=
  db_file w' = db_file w \/ exists data, db_file w' = Some (json_dump data).

(** The export file is as it was, or holds the header and the rows of a
    collection that is not empty. *)
Definition export_written {L : PyLib} (s s' : session) : Prop :=
  snd s' = snd s \/ exists data, data <> [] /\ snd s' = Some (csv_text data).

Definition session_console (s s' : session) : Prop :=
  console_advances (fst s) (fst s').

(** What one turn of the menu does with the choice it has read, [continue]
    standing for the turns that follow. *)
Definition dispatch {L : PyLib} (continue : P unit) (choice : string) : P unit :=
  if (choice =? "1")%string then lift add_expense ;;; continue
  else if (choice =? "2")%string then lift view_all ;;; continue
  else if (choice =? "3")%string then lift monthly_summary ;;; continue
  else if (choice =? "4")%string then lift search ;;; continue
  else if (choice =? "5")%string then lift delete ;;; continue
  else if (choice =? "6")%string then export_csv ;;; continue
  else if (choice =? "7")%string then lift (print (Text "Goodbye!"))
  else lift (print (Text "Invalid choice.")) ;;; continue.

(** The backing file is as it was. *)
Definition same_store (w w' : world) : Prop := db_file w' = db_file w.

(** The lines printed at the top of every turn of the menu. *)
Definition menu_lines : list line :=
  [Text "=== Smart Expense Tracker ==="; Text "1. Add Expense";
   Text "2. View All Expenses"; Text "3. Monthly Summary"; Text "4. Search";
   Text "5. Delete Expense"; Text "6. Export CSV"; Text "7. Exit";
   Prompt "Choose 1-7: "].

(** * Properties *)

Arguments Text.strip : simpl never.
Arguments Text.py_int : simpl never.
Arguments Float.py_float : simpl never.
Arguments Float.mul : simpl never.
Arguments Float.add : simpl never.
Arguments Float.of_Z : simpl never.
Arguments Float.trunc : simpl never.
Arguments Calendar.isoformat : simpl never.
Arguments Calendar.strptime : simpl never.

(** ** The library models on concrete inputs *)

Example strip_examples :
  Text.strip "  Lunch " = "Lunch" /\ Text.strip "   " = "" /\ Text.strip "a b" = "a b".
Proof. repeat split. Qed.

Example py_int_examples :
  Text.py_int " 42 " = Some 42 /\ Text.py_int "-1_000" = Some (-1000)
  /\ Text.py_int "20x4" = None /\ Text.py_int "1__0" = None /\ Text.py_int "" = None.
Proof. repeat split. Qed.

Example py_float_examples :
  Float.py_float "12.50" = Some (Float.of_decimal false 125 (-1))
  /\ Float.py_float "1e3" = Some (Float.of_Z 1000)
  /\ Float.py_float " .5 " = Some (Float.of_decimal false 5 (-1))
  /\ Float.py_float "NaN" = Some S754_nan
  /\ Float.py_float "abc" = None
  /\ Float.py_float "1e" = None.
Proof. repeat split; vm_compute; reflexivity. Qed.

(** Sums are rounded: 0.1 + 0.2 is the float written 0.30000000000000004. *)
Example float_add_rounds :
  Float.add (Float.of_decimal false 1 (-1)) (Float.of_decimal false 2 (-1))
  = Float.of_decimal false 30000000000000004 (-17)
  /\ Float.of_decimal false 30000000000000004 (-17) <> Float.of_decimal false 3 (-1).
Proof. split; vm_compute; [reflexivity|discriminate]. Qed.

Example strptime_examples :
  Calendar.strptime "2024-01-05" "%Y-%m-%d" = Some (Calendar.mkDate 2024 1 5)
  /\ Calendar.strptime "5-1-2024" "%d-%m-%Y" = Some (Calendar.mkDate 2024 1 5)
  /\ Calendar.strptime "2024/02/29" "%Y/%m/%d" = Some (Calendar.mkDate 2024 2 29)
  /\ Calendar.strptime "2023/02/29" "%Y/%m/%d" = None
  /\ Calendar.strptime "2024-01-05 " "%Y-%m-%d" = None
  /\ Calendar.strptime "13/45/9999" "%Y/%m/%d" = None.
Proof. repeat split. Qed.

Example isoformat_example :
  Calendar.isoformat (Calendar.mkDate 987 3 5) = "0987-03-05".
Proof. reflexivity. Qed.

(** The reference runtime reads back what it writes for the example
    records, and refuses text that is not JSON. *)
Example json_examples :
  Json.load (Json.dump example_records) = Some example_records
  /\ Json.load "[]" = Some []
  /\ Json.load "{ not json" = None
  /\ Json.load "" = None.
Proof. repeat split; vm_compute; reflexivity. Qed.

(** ** The store *)

Section StoreProperties.
Context {L : PyLib}.

Lemma load_data_stored (w : world) : load_data w = (Ok (stored w), w).
Proof.
  unfold load_data, stored, bind, read_db, ret.
  destruct (db_file w) as [text|]; [destruct (json_load text)|]; reflexivity.
Qed.

Lemma stored_after (w : world) (rest : list string) (out : list line)
    (data : list ExpenseRecord) :
  json_load (json_dump data) = Some data ->
  stored (after w rest out (Some (json_dump data))) = data.
Proof. intros H. unfold stored, after. simpl. now rewrite H. Qed.

Lemma stored_unchanged (w : world) (rest : list string) (out : list line) :
  stored (after w rest out (db_file w)) = stored w.
Proof. reflexivity. Qed.



End StoreProperties.



(** ** The order on text and the built-in sort *)

Lemma string_compare_refl (s : string) : String.compare s s = Eq.
Proof.
  induction s as [|c s IH]; simpl; [reflexivity|].
  unfold Ascii.compare. now rewrite N.compare_refl.
Qed.

Lemma string_leb_refl (s : string) : String.leb s s = true.
Proof. unfold String.leb. now rewrite string_compare_refl. Qed.

Lemma string_compare_trans (a b c : string) :
  String.compare a b <> Gt -> String.compare b c <> Gt -> String.compare a c <> Gt.
Proof.
  revert b c.
  induction a as [|x a IH]; intros [|y b] [|z c]; simpl; try congruence.
  unfold Ascii.compare.
  destruct (N.compare_spec (N_of_ascii x) (N_of_ascii y)) as [Hxy|Hxy|Hxy];
    destruct (N.compare_spec (N_of_ascii y) (N_of_ascii z)) as [Hyz|Hyz|Hyz];
    try congruence.
  - rewrite Hxy, Hyz, N.compare_refl. apply IH.
  - intros _ _. rewrite Hxy. apply N.compare_lt_iff in Hyz. now rewrite Hyz.
  - intros _ _. rewrite <- Hyz. apply N.compare_lt_iff in Hxy. now rewrite Hxy.
  - intros _ _.
    assert (H : (N_of_ascii x < N_of_ascii z)%N) by (eapply N.lt_trans; eassumption).
    apply N.compare_lt_iff in H. now rewrite H.
Qed.

Lemma string_leb_trans (a b c : string) :
  String.leb a b = true -> String.leb b c = true -> String.leb a c = true.
Proof.
  unfold String.leb. intros Hab Hbc.
  assert (H : String.compare a c <> Gt).
  { apply (string_compare_trans a b c).
    - destruct (String.compare a b); congruence.
    - destruct (String.compare b c); congruence. }
  destruct (String.compare a c); congruence.
Qed.

Section SortingProperties.
Context {A : Type} (key : A -> string).

Local Abbreviation ascending := (ascending key).
Local Abbreviation descending := (descending key).
Local Abbreviation with_key := (with_key key).

Lemma insert_by_perm (x : A) (l : list A) : Permutation (insert_by key x l) (x :: l).
Proof.
  induction l as [|y l IH]; simpl; [reflexivity|].
  destruct (String.leb (key x) (key y)); [reflexivity|].
  rewrite IH. apply perm_swap.
Qed.

Lemma sort_by_perm (l : list A) : Permutation (sort_by key l) l.
Proof.
  induction l as [|x l IH]; simpl; [reflexivity|].
  rewrite insert_by_perm. now constructor.
Qed.

Lemma insert_by_sorted (x : A) (l : list A) :
  StronglySorted ascending l -> StronglySorted ascending (insert_by key x l).
Proof.
  induction 1 as [|y l Hs IH Hy]; simpl.
  - repeat constructor.
  - destruct (String.leb (key x) (key y)) eqn:E.
    + constructor; [now constructor|].
      constructor; [exact E|].
      eapply Forall_impl; [|exact Hy].
      intros a Ha. unfold ascending in *. eapply string_leb_trans; eassumption.
    + constructor; [exact IH|].
      assert (Hyx : ascending y x).
      { unfold ascending. destruct (String.leb_total (key x) (key y)); congruence. }
      eapply Permutation_Forall; [symmetry; apply insert_by_perm|].
      now constructor.
Qed.

Lemma sort_by_sorted (l : list A) : StronglySorted ascending (sort_by key l).
Proof.
  induction l as [|x l IH]; simpl; [constructor|now apply insert_by_sorted].
Qed.

Lemma insert_by_with_key (k : string) (x : A) (l : list A) :
  with_key k (insert_by key x l) = with_key k (x :: l).
Proof.
  induction l as [|y l IH]; simpl; [reflexivity|].
  destruct (String.leb (key x) (key y)) eqn:E; [reflexivity|].
  simpl in *. rewrite IH.
  destruct (String.eqb_spec (key x) k) as [Hx|Hx];
    destruct (String.eqb_spec (key y) k) as [Hy|Hy]; try reflexivity.
  rewrite Hx, Hy, string_leb_refl in E. discriminate.
Qed.

Lemma sort_by_with_key (k : string) (l : list A) :
  with_key k (sort_by key l) = with_key k l.
Proof.
  induction l as [|x l IH]; simpl; [reflexivity|].
  rewrite insert_by_with_key. simpl. now rewrite IH.
Qed.

Lemma with_key_rev (k : string) (l : list A) : with_key k (rev l) = rev (with_key k l).
Proof.
  unfold with_key.
  induction l as [|x l IH]; simpl; [reflexivity|].
  rewrite filter_app, IH. simpl.
  destruct (key x =? k)%string; simpl; [reflexivity|apply app_nil_r].
Qed.

Lemma rev_sorted (l : list A) :
  StronglySorted ascending l -> StronglySorted descending (rev l).
Proof.
  induction 1 as [|x l Hs IH Hx]; simpl; [constructor|].
  assert (G : forall l', StronglySorted descending l' ->
                         Forall (fun a => descending a x) l' ->
                         StronglySorted descending (l' ++ [x])).
  { induction 1 as [|y l' Hs' IH' Hy]; intros Hall; simpl.
    - repeat constructor.
    - inversion Hall; subst. constructor; [now apply IH'|].
      apply Forall_app. split; [exact Hy|]. now repeat constructor. }
  apply G; [exact IH|].
  apply Forall_rev. exact Hx.
Qed.

(** With [reverse=True] the result holds the same elements, ... *)
Lemma sorted_reverse_perm (l : list A) : Permutation (sorted key true l) l.
Proof.
  unfold sorted.
  rewrite <- Permutation_rev, sort_by_perm, <- Permutation_rev. reflexivity.
Qed.

(** ... in descending order of their keys, ... *)
Lemma sorted_reverse_descending (l : list A) :
  StronglySorted descending (sorted key true l).
Proof. unfold sorted. apply rev_sorted, sort_by_sorted. Qed.

(** ... and elements with equal keys stay in their original order. *)
Lemma sorted_reverse_stable (k : string) (l : list A) :
  with_key k (sorted key true l) = with_key k l.
Proof.
  unfold sorted.
  now rewrite with_key_rev, sort_by_with_key, with_key_rev, rev_involutive.
Qed.

End SortingProperties.

(** ** Running the primitive commands

    The world reached from [w] is kept in the form [after w rest out file];
    each lemma runs one command in front of a continuation. *)

Lemma after_after (w : world) (r r' : list string) (o o' : list line)
    (f f' : option string) :
  after (after w r o f) r' o' f' = after w r' (o ++ o') f'.
Proof. unfold after. simpl. now rewrite app_assoc. Qed.

Lemma after_nothing (w : world) : after w (stdin w) [] (db_file w) = w.
Proof. destruct w. unfold after. simpl. now rewrite app_nil_r. Qed.

Section Running.
Context {L : PyLib} {B : Type}.
Variables (w : world) (r : list string) (o : list line) (f : option string).

Lemma start_print (l : line) (k : unit -> M B) :
  bind (print l) k w = k tt (after w (stdin w) [l] (db_file w)).
Proof. reflexivity. Qed.

Lemma bind_print (l : line) (k : unit -> M B) :
  bind (print l) k (after w r o f) = k tt (after w r (o ++ [l]) f).
Proof. unfold bind, print, after. simpl. now rewrite <- app_assoc. Qed.

Lemma bind_input (prompt text : string) (k : string -> M B) :
  bind (input prompt) k (after w (text :: r) o f)
  = k text (after w r (o ++ [Prompt prompt]) f).
Proof. unfold bind, input, after. simpl. now rewrite <- app_assoc. Qed.

Lemma bind_input_eof (prompt : string) (k : string -> M B) :
  bind (input prompt) k (after w [] o f)
  = (Raise EOFError, after w [] (o ++ [Prompt prompt]) f).
Proof. unfold bind, input, after. simpl. now rewrite <- app_assoc. Qed.

Lemma bind_load_data (k : list ExpenseRecord -> M B) :
  bind load_data k (after w r o (db_file w))
  = k (stored w) (after w r o (db_file w)).
Proof. unfold bind. now rewrite load_data_stored. Qed.

Lemma bind_save_data (data : list ExpenseRecord) (k : unit -> M B) :
  bind (save_data data) k (after w r o f)
  = k tt (after w r o (Some (json_dump data))).
Proof. reflexivity. Qed.

Lemma bind_get_today (k : Calendar.date -> M B) :
  bind get_today k (after w r o f) = k (today w) (after w r o f).
Proof. reflexivity. Qed.

Lemma bind_get_timestamp (k : Float.float -> M B) :
  bind get_timestamp k (after w r o f) = k (timestamp w) (after w r o f).
Proof. reflexivity. Qed.

Lemma bind_ret {A : Type} (a : A) (k : A -> M B) (w0 : world) :
  bind (ret a) k w0 = k a w0.
Proof. reflexivity. Qed.

Lemma bind_raise {A : Type} (e : exn) (k : A -> M B) (w0 : world) :
  bind (raise e) k w0 = (Raise e, w0).
Proof. reflexivity. Qed.

Lemma end_print (l : line) :
  print l (after w r o f) = (Ok tt, after w r (o ++ [l]) f).
Proof. unfold print, after. simpl. now rewrite <- app_assoc. Qed.

End Running.

Lemma bind_ok {A B : Type} (m : M A) (k : A -> M B) (w w' : world) (a : A) :
  m w = (Ok a, w') -> bind m k w = k a w'.
Proof. intros H. unfold bind. now rewrite H. Qed.

Lemma bind_fails {A B : Type} (m : M A) (k : A -> M B) (w w' : world) (e : exn) :
  m w = (Raise e, w') -> bind m k w = (Raise e, w').
Proof. intros H. unfold bind. now rewrite H. Qed.

Lemma bind_assoc {A B C : Type} (m : M A) (k : A -> M B) (h : B -> M C)
    (w : world) :
  bind (bind m k) h w = bind m (fun a => bind (k a) h) w.
Proof. unfold bind. destruct (m w) as [[a|e] w']; reflexivity. Qed.

Lemma bind_try_except {A B : Type} (body : M A) (catches : exn -> bool)
    (handler : exn -> M A) (k : A -> M B) (w : world) :
  bind (try_except body catches handler) k w
  = match body w with
    | (Ok a, w') => k a w'
    | (Raise e, w') =>
        if catches e then bind (handler e) k w' else (Raise e, w')
    end.
Proof.
  unfold bind, try_except.
  destruct (body w) as [[a|e] w']; [reflexivity|].
  destruct (catches e); reflexivity.
Qed.

Lemma match_nonempty {A B : Type} (l : list A) (x y : B) :
  l <> [] -> match l with [] => x | _ :: _ => y end = y.
Proof. destruct l; [congruence|reflexivity]. Qed.

Lemma ret_run {A : Type} (a : A) (w : world) : ret a w = (Ok a, w).
Proof. reflexivity. Qed.

Lemma raise_run {A : Type} (e : exn) (w : world) : raise (A := A) e w = (Raise e, w).
Proof. reflexivity. Qed.

Ltac run_step :=
  first
    [ rewrite bind_assoc | rewrite ret_run | rewrite raise_run | rewrite bind_print | rewrite bind_input | rewrite bind_input_eof
    | rewrite bind_load_data | rewrite bind_save_data | rewrite bind_get_today
    | rewrite bind_get_timestamp | rewrite bind_ret | rewrite bind_raise
    | rewrite end_print ];
  cbv beta match.

Ltac run := repeat run_step.

(** ** [view_all] *)

Section ViewAll.
Context {L : PyLib}.

Lemma view_loop_run (rs : list ExpenseRecord) (total : Float.float) (w : world)
    (r : list string) (o : list line) (f : option string) :
  view_loop rs total (after w r o f)
  = (Ok (fold_left Float.add (map r_amount rs) total),
     after w r (o ++ map expense_line rs) f).
Proof.
  revert total o.
  induction rs as [|x rs IH]; intros total o; simpl.
  - now rewrite app_nil_r.
  - run. rewrite IH, <- app_assoc. reflexivity.
Qed.

(** C4.  On a non-empty collection [view_all] prints one line per record,
    sorted by the date text in descending order with equal dates in their
    original order, then the sum of the amounts of the records listed; it
    leaves the backing file as it was.  On the example records the order
    is 3, 2, 1 and the total is 35.0. *)
Theorem view_all_lists_by_date (w : world) :
  stored w <> [] ->
  let listing := sorted r_date true (stored w) in
  view_all w
  = (Ok tt,
     after w (stdin w)
       ([Text "--- All Expenses ---"] ++ map expense_line listing
          ++ [TotalSpent (py_sum (map r_amount listing))])
       (db_file w))
  /\ Permutation listing (stored w)
  /\ StronglySorted (descending r_date) listing
  /\ (forall k, with_key r_date k listing = with_key r_date k (stored w))
  /\ map r_id (sorted r_date true example_records) = [3; 2; 1]
  /\ py_sum (map r_amount (sorted r_date true example_records)) = Float.of_Z 35.
Proof.
  intros Hne listing.
  split; [|split; [|split; [|split; [|split]]]].
  - unfold view_all. rewrite start_print. run.
    destruct (stored w) as [|x rs] eqn:E; [congruence|].
    erewrite bind_ok by apply view_loop_run.
    run. rewrite <- app_assoc. reflexivity.
  - apply sorted_reverse_perm.
  - apply sorted_reverse_descending.
  - intros k. apply sorted_reverse_stable.
  - reflexivity.
  - vm_compute. reflexivity.
Qed.

End ViewAll.

(** C4 on the reference runtime with the example store. *)
Lemma view_all_lists_by_date_witness :
  let w := example_world ["next"] example_store in
  stored (L := reference_lib) w <> []
  /\ view_all (L := reference_lib) w
     = (Ok tt,
        after w ["next"]
          [Text "--- All Expenses ---";
           ExpenseLine "2024-02-01" "Transport" (Float.of_Z 5) "" "";
           ExpenseLine "2024-01-20" "Food" (Float.of_Z 20) "" "";
           ExpenseLine "2024-01-05" "Food" (Float.of_Z 10) "" "";
           TotalSpent (Float.of_Z 35)]
          example_store).
Proof.
  intros w.
  assert (H : stored (L := reference_lib) w <> []) by (vm_compute; discriminate).
  split; [exact H|].
  destruct (view_all_lists_by_date (L := reference_lib) w H) as [E _].
  rewrite E. vm_compute. reflexivity.
Defined.

(** ** [delete] *)

Section Delete.
Context {L : PyLib}.

Lemma filter_keeps_length {A : Type} (f : A -> bool) (l : list A) :
  Nat.eqb (List.length (filter f l)) (List.length l) = forallb f l.
Proof.
  induction l as [|x l IH]; simpl; [reflexivity|].
  destruct (f x); simpl; [exact IH|].
  apply Nat.eqb_neq.
  pose proof (filter_length_le f l). lia.
Qed.

Lemma filter_all {A : Type} (f : A -> bool) (l : list A) :
  forallb f l = true -> filter f l = l.
Proof.
  induction l as [|x l IH]; simpl; [reflexivity|].
  destruct (f x); simpl; [|discriminate].
  intros H. now rewrite IH.
Qed.

Lemma other_id_count (id_num : Z) (data : list ExpenseRecord) :
  (List.length (filter (other_id id_num) data)
   + count_occ Z.eq_dec (map r_id data) id_num)%nat
  = List.length data.
Proof.
  induction data as [|r data IH]; simpl; [reflexivity|].
  unfold other_id at 1.
  destruct (Z.eq_dec (r_id r) id_num) as [E|E].
  - apply Z.eqb_eq in E. rewrite E. simpl. lia.
  - apply Z.eqb_neq in E. rewrite E. simpl. lia.
Qed.

Lemma absent_forallb (id_num : Z) (data : list ExpenseRecord) :
  (forall r, In r data -> r_id r <> id_num) <->
  forallb (other_id id_num) data = true.
Proof.
  rewrite forallb_forall. unfold other_id.
  split; intros H r Hr; specialize (H r Hr).
  - apply Z.eqb_neq in H. now rewrite H.
  - apply Z.eqb_neq. now destruct (r_id r =? id_num).
Qed.

(** C2.  For an integer id, [delete] keeps exactly the records with
    another id, in their order.  When some record has the id, it writes the
    filtered collection to the backing file, which then holds it; when none
    has it, it reports that the id was not found and leaves the file as it
    was.  An id present once lowers the size by one, an absent id leaves
    it unchanged. *)
Theorem delete_removes_id (w : world) (text : string) (rest : list string)
    (id_num : Z) :
  stdin w = text :: rest ->
  Text.py_int (Text.strip text) = Some id_num ->
  let data := stored w in
  let new_data := filter (other_id id_num) data in
  let report := fun msg =>
    [Text "--- Delete Expense ---"; Prompt "Enter ID: "; Text msg] in
  ((exists r, In r data /\ r_id r = id_num) ->
   let w' := after w rest (report "Deleted successfully!")
                   (Some (json_dump new_data)) in
   delete w = (Ok tt, w')
   /\ (json_load (json_dump new_data) = Some new_data -> stored w' = new_data))
  /\ ((forall r, In r data -> r_id r <> id_num) ->
      delete w = (Ok tt, after w rest (report "ID not found.") (db_file w))
      /\ new_data = data)
  /\ (forall r, In r new_data <-> In r data /\ r_id r <> id_num)
  /\ (count_occ Z.eq_dec (map r_id data) id_num = 1%nat ->
      S (List.length new_data) = List.length data)
  /\ ((forall r, In r data -> r_id r <> id_num) ->
      List.length new_data = List.length data).
Proof.
  intros Hin Hint data new_data report.
  assert (Hrun : delete w
                 = (if forallb (other_id id_num) data
                    then (Ok tt, after w rest (report "ID not found.") (db_file w))
                    else (Ok tt, after w rest (report "Deleted successfully!")
                                       (Some (json_dump new_data))))).
  { unfold delete. rewrite start_print, Hin.
    erewrite bind_ok.
    2:{ unfold try_except. run.
        unfold int_of_text. rewrite Hint. run. reflexivity. }
    cbv beta match. run. fold data. change (filter _ data) with new_data.
    unfold new_data. rewrite filter_keeps_length.
    destruct (forallb (other_id id_num) data); run; reflexivity. }
  split; [|split; [|split; [|split]]].
  - intros [r [Hr Hid]] w'.
    assert (Hf : forallb (other_id id_num) data = false).
    { destruct (forallb (other_id id_num) data) eqn:E; [|reflexivity].
      now elim (proj2 (absent_forallb id_num data) E r Hr). }
    rewrite Hrun, Hf. split; [reflexivity|].
    intros Hjson. now apply stored_after.
  - intros Habs.
    pose proof (proj1 (absent_forallb id_num data) Habs) as Hf.
    rewrite Hrun, Hf. split; [reflexivity|].
    now apply filter_all.
  - intros r. unfold new_data. rewrite filter_In. unfold other_id.
    split; intros [Hr H]; (split; [exact Hr|]).
    + apply Z.eqb_neq. now destruct (r_id r =? id_num).
    + apply Z.eqb_neq in H. now rewrite H.
  - intros Hone. pose proof (other_id_count id_num data) as Hc.
    fold new_data in Hc. lia.
  - intros Habs. unfold new_data. rewrite filter_all; [reflexivity|].
    now apply absent_forallb.
Qed.

End Delete.

(** C2 on the reference runtime: id 2 is deleted from the example store. *)
Lemma delete_removes_id_witness :
  let w := example_world ["2"; "next"] example_store in
  let kept := [ mkRecord 1 "2024-01-05" "" "Food" (Float.of_Z 10) "";
                mkRecord 3 "2024-02-01" "" "Transport" (Float.of_Z 5) "" ] in
  let w' := after w ["next"]
              [Text "--- Delete Expense ---"; Prompt "Enter ID: ";
               Text "Deleted successfully!"]
              (Some (Json.dump kept)) in
  delete (L := reference_lib) w = (Ok tt, w')
  /\ stored (L := reference_lib) w' = kept.
Proof.
  intros w kept w'.
  destruct (delete_removes_id (L := reference_lib) w "2" ["next"] 2
              eq_refl eq_refl) as [Hfound _].
  destruct Hfound as [Hrun Hstored].
  - exists (mkRecord 2 "2024-01-20" "" "Food" (Float.of_Z 20) "").
    split; [|reflexivity].
    vm_compute. right. left. reflexivity.
  - split.
    + rewrite Hrun. vm_compute. reflexivity.
    + vm_compute. reflexivity.
Defined.

(** ** Grouping by category *)

Section Grouping.

Lemma first_seen_In (c : string) (l : list string) :
  In c (first_seen l) <-> In c l.
Proof.
  induction l as [|x l IH]; simpl; [tauto|].
  rewrite filter_In, IH.
  destruct (String.eqb_spec c x) as [->|Hne]; simpl; intuition congruence.
Qed.

Lemma first_seen_NoDup (l : list string) : NoDup (first_seen l).
Proof.
  induction l as [|x l IH]; simpl; constructor.
  - rewrite filter_In, String.eqb_refl. simpl. intros [_ H]. discriminate.
  - now apply NoDup_filter.
Qed.

Lemma first_seen_snoc (l : list string) (c : string) :
  first_seen (l ++ [c])
  = if in_dec string_dec c l then first_seen l else first_seen l ++ [c].
Proof.
  induction l as [|x l IH]; simpl; [reflexivity|].
  rewrite IH.
  destruct (in_dec string_dec c l) as [Hin|Hout];
    destruct (string_dec x c) as [->|Hne]; try reflexivity.
  - rewrite filter_app. simpl. rewrite String.eqb_refl. simpl.
    now rewrite app_nil_r.
  - rewrite filter_app. simpl.
    destruct (String.eqb_spec c x) as [->|_]; [congruence|reflexivity].
Qed.

Variable V : string -> Float.float.

Lemma dict_get_map (keys : list string) (c : string) (d : Float.float) :
  dict_get (map (fun k => (k, V k)) keys) c d
  = if in_dec string_dec c keys then V c else d.
Proof.
  induction keys as [|k keys IH]; simpl; [reflexivity|].
  destruct (String.eqb_spec k c) as [->|Hne].
  - destruct (string_dec c c); [reflexivity|congruence].
  - rewrite IH. destruct (string_dec k c); [congruence|].
    destruct (in_dec string_dec c keys); reflexivity.
Qed.

Lemma dict_set_map_in (keys : list string) (c : string) (v : Float.float) :
  NoDup keys -> In c keys ->
  dict_set (map (fun k => (k, V k)) keys) c v
  = map (fun k => (k, if (k =? c)%string then v else V k)) keys.
Proof.
  induction 1 as [|k keys Hk Hnd IH]; simpl; [tauto|].
  destruct (String.eqb_spec k c) as [->|Hne]; intros Hin.
  - f_equal. apply map_ext_in. intros k' Hk'.
    destruct (String.eqb_spec k' c) as [->|_]; [contradiction|reflexivity].
  - f_equal. apply IH. destruct Hin; [congruence|assumption].
Qed.

Lemma dict_set_map_out (keys : list string) (c : string) (v : Float.float) :
  ~ In c keys ->
  dict_set (map (fun k => (k, V k)) keys) c v
  = map (fun k => (k, V k)) keys ++ [(c, v)].
Proof.
  induction keys as [|k keys IH]; simpl; [reflexivity|].
  intros Hout.
  destruct (String.eqb_spec k c) as [->|Hne]; [tauto|].
  f_equal. apply IH. tauto.
Qed.

End Grouping.

Lemma py_sum_snoc (xs : list Float.float) (x : Float.float) :
  py_sum (xs ++ [x]) = Float.add (py_sum xs) x.
Proof. unfold py_sum. now rewrite fold_left_app. Qed.

Lemma subtotal_snoc (rs : list ExpenseRecord) (r : ExpenseRecord) (cat : string) :
  subtotal (rs ++ [r]) cat
  = if (r_category r =? cat)%string
    then Float.add (subtotal rs cat) (r_amount r) else subtotal rs cat.
Proof.
  unfold subtotal. rewrite filter_app. cbn [filter]. unfold of_category at 2.
  destruct (r_category r =? cat)%string.
  - rewrite map_app. cbn [map]. apply py_sum_snoc.
  - now rewrite app_nil_r.
Qed.

Lemma subtotal_absent (rs : list ExpenseRecord) (cat : string) :
  ~ In cat (map r_category rs) -> subtotal rs cat = Float.of_Z 0.
Proof.
  intros Hout. unfold subtotal.
  replace (filter (of_category cat) rs) with (@nil ExpenseRecord); [reflexivity|].
  symmetry. induction rs as [|r rs IH]; simpl in *; [reflexivity|].
  unfold of_category at 1.
  destruct (String.eqb_spec (r_category r) cat) as [E|_]; [tauto|].
  apply IH. tauto.
Qed.

Lemma subtotals_table (rs : list ExpenseRecord) :
  subtotals rs = map (fun k => (k, subtotal rs k)) (first_seen (map r_category rs)).
Proof. reflexivity. Qed.

Lemma subtotals_snoc (rs : list ExpenseRecord) (r : ExpenseRecord) :
  subtotals (rs ++ [r])
  = dict_set (subtotals rs) (r_category r)
      (Float.add (dict_get (subtotals rs) (r_category r) (Float.of_Z 0)) (r_amount r)).
Proof.
  rewrite !subtotals_table.
  set (c := r_category r). set (cats := map r_category rs).
  rewrite map_app. simpl. fold c cats.
  rewrite first_seen_snoc, dict_get_map.
  destruct (in_dec string_dec c cats) as [Hin|Hout].
  - destruct (in_dec string_dec c (first_seen cats)) as [_|H];
      [|elim H; now apply first_seen_In].
    rewrite dict_set_map_in;
      [|apply first_seen_NoDup|now apply first_seen_In].
    apply map_ext. intros k. rewrite subtotal_snoc. fold c.
    rewrite String.eqb_sym.
    destruct (String.eqb_spec k c) as [->|_]; reflexivity.
  - destruct (in_dec string_dec c (first_seen cats)) as [H|_];
      [elim Hout; now apply first_seen_In|].
    rewrite dict_set_map_out; [|now rewrite first_seen_In].
    rewrite map_app. simpl. f_equal.
    + apply map_ext_in. intros k Hk. rewrite subtotal_snoc. fold c.
      destruct (String.eqb_spec c k) as [<-|_]; [|reflexivity].
      elim Hout. now apply first_seen_In.
    + rewrite subtotal_snoc. fold c. rewrite String.eqb_refl.
      now rewrite subtotal_absent.
Qed.

(** The dictionary built by the loop is the table of subtotals, one entry
    per category in first-seen order. *)
Lemma group_by_category_subtotals (rs : list ExpenseRecord) :
  group_by_category rs = subtotals rs.
Proof.
  induction rs as [|r rs IH] using rev_ind; [reflexivity|].
  unfold group_by_category in *. rewrite fold_left_app. simpl.
  rewrite IH. symmetry. apply subtotals_snoc.
Qed.

Lemma subtotals_not_empty (rs : list ExpenseRecord) :
  rs <> [] -> subtotals rs <> [].
Proof. destruct rs; [congruence|discriminate]. Qed.

(** ** [monthly_summary] *)

Section MonthlySummary.
Context {L : PyLib}.

Lemma filter_month_valid (year month : Z) (data : list ExpenseRecord) (w : world) :
  valid_dates data ->
  filter_month year month data w = (Ok (filter (in_month year month) data), w).
Proof.
  induction data as [|r data IH]; intros Hv; [reflexivity|].
  assert (Hr : fromisoformat (r_date r) <> None) by (apply Hv; now left).
  assert (Hd : valid_dates data) by (intros x Hx; apply Hv; now right).
  cbn [filter_month filter]. unfold in_month at 1, date_of.
  destruct (fromisoformat (r_date r)) as [d|]; [|congruence].
  rewrite bind_ret.
  destruct (Calendar.year d =? year); run;
    (erewrite bind_ok by (apply IH; exact Hd)); reflexivity.
Qed.


Lemma category_loop_run (items : dict) (total : Float.float) (w : world)
    (r : list string) (o : list line) (f : option string) :
  Float.is_zero total = false ->
  category_loop items total (after w r o f)
  = (Ok tt, after w r (o ++ map (category_line total) items) f).
Proof.
  intros Hz. revert o.
  induction items as [|[cat amt] items IH]; intros o; simpl.
  - now rewrite app_nil_r.
  - unfold percentage, Float.truediv. rewrite Hz. run.
    rewrite IH, <- app_assoc. reflexivity.
Qed.

Lemma category_loop_zero (items : dict) (total : Float.float) (w : world) :
  Float.is_zero total = true -> items <> [] ->
  category_loop items total w = (Raise ZeroDivisionError, w).
Proof.
  intros Hz Hne. destruct items as [|[cat amt] items]; [congruence|].
  simpl. unfold percentage, Float.truediv. rewrite Hz. reflexivity.
Qed.

(** The part of [monthly_summary] up to the list comprehension: when the
    two inputs are blank or integers, the collection is loaded and
    filtered. *)
Lemma monthly_summary_run (w : world) (y m : string) (rest : list string)
    (year month : Z) :
  stdin w = y :: m :: rest ->
  chosen y (Calendar.year (today w)) = Some year ->
  chosen m (Calendar.month (today w)) = Some month ->
  monthly_summary w
  = (let w' := after w rest
                 [Text "--- Monthly Summary ---"; Prompt "Year (YYYY): ";
                  Prompt "Month (1-12): "] (db_file w) in
     bind (filter_month year month (stored w))
       (fun filtered =>
          match filtered with
          | [] => print (Text "No records.")
          | _ =>
              let total := py_sum (map r_amount filtered) in
              print (SummaryFor year month) ;;
              category_loop (group_by_category filtered) total ;;
              print (TotalLine total)
          end) w').
Proof.
  intros Hin Hy Hm. unfold monthly_summary.
  rewrite start_print, Hin. run.
  unfold chosen in Hy, Hm.
  destruct (is_blank (Text.strip y)); destruct (is_blank (Text.strip m));
    unfold int_of_text;
    repeat match goal with
           | H : Some _ = Some _ |- _ => injection H as H; subst
           | H : Text.py_int _ = Some _ |- _ => rewrite H
           end;
    run; reflexivity.
Qed.

Lemma chosen_none (text : string) (current : Z) :
  chosen text current = None <->
  Text.strip text <> "" /\ Text.py_int (Text.strip text) = None.
Proof.
  unfold chosen, is_blank.
  destruct (String.eqb_spec (Text.strip text) "") as [E|E].
  - split; [discriminate|tauto].
  - tauto.
Qed.

Lemma monthly_summary_bad_input (w : world) (y m : string) (rest : list string) :
  stdin w = y :: m :: rest ->
  chosen y (Calendar.year (today w)) = None
  \/ chosen m (Calendar.month (today w)) = None ->
  exists bad,
    (bad = Text.strip y \/ bad = Text.strip m)
    /\ Text.py_int bad = None
    /\ monthly_summary w
       = (Raise (ValueError (InvalidIntLiteral bad)),
          after w rest
            [Text "--- Monthly Summary ---"; Prompt "Year (YYYY): ";
             Prompt "Month (1-12): "] (db_file w)).
Proof.
  intros Hin Hbad.
  assert (Hrun : forall k : Z -> M unit,
             monthly_summary w
             = bind (if is_blank (Text.strip y) then ret (Calendar.year (today w))
                     else int_of_text (Text.strip y))
                 (fun year =>
                    bind (if is_blank (Text.strip m)
                          then ret (Calendar.month (today w))
                          else int_of_text (Text.strip m))
                      (fun month =>
                         data <- load_data ;;
                         filtered <- filter_month year month data ;;
                         match filtered with
                         | [] => print (Text "No records.")
                         | _ =>
                             let total := py_sum (map r_amount filtered) in
                             print (SummaryFor year month) ;;
                             category_loop (group_by_category filtered) total ;;
                             print (TotalLine total)
                         end))
                 (after w rest
                    [Text "--- Monthly Summary ---"; Prompt "Year (YYYY): ";
                     Prompt "Month (1-12): "] (db_file w))).
  { intros _. unfold monthly_summary. rewrite start_print, Hin. run. reflexivity. }
  rewrite (Hrun (fun _ => ret tt)). clear Hrun.
  unfold chosen in Hbad. unfold int_of_text.
  destruct (is_blank (Text.strip y)) eqn:By.
  - destruct Hbad as [Hbad|Hbad]; [discriminate|].
    destruct (is_blank (Text.strip m)); [discriminate|].
    exists (Text.strip m). rewrite Hbad. run. auto.
  - destruct (Text.py_int (Text.strip y)) as [year|] eqn:Py.
    + destruct Hbad as [Hbad|Hbad]; [discriminate|].
      destruct (is_blank (Text.strip m)); [discriminate|].
      exists (Text.strip m). rewrite Hbad. run. auto.
    + exists (Text.strip y). run. auto.
Qed.

(** C3, as amended.  For a collection whose dates all parse,
    [monthly_summary] restricts it to the records of the requested year and
    month.  When none is left it reports that there are no records.  When
    some are left and their total is not zero it reports the year and
    month, then for each category, in first-seen order, its subtotal and
    the percentage [subtotal / total * 100], then the total.  On the example
    records, the summary of 2024-01 is one line, Food with 30.0 and 100.0
    percent, and the total 30.0. *)
Theorem monthly_summary_reports (w : world) (y m : string) (rest : list string)
    (year month : Z) :
  stdin w = y :: m :: rest ->
  chosen y (Calendar.year (today w)) = Some year ->
  chosen m (Calendar.month (today w)) = Some month ->
  valid_dates (stored w) ->
  let filtered := filter (in_month year month) (stored w) in
  let total := py_sum (map r_amount filtered) in
  let prologue := [Text "--- Monthly Summary ---"; Prompt "Year (YYYY): ";
                   Prompt "Month (1-12): "] in
  (filtered = [] ->
   monthly_summary w
   = (Ok tt, after w rest (prologue ++ [Text "No records."]) (db_file w)))
  /\ (filtered <> [] -> Float.is_zero total = false ->
      monthly_summary w
      = (Ok tt,
         after w rest
           (prologue ++ [SummaryFor year month]
              ++ map (category_line total) (subtotals filtered)
              ++ [TotalLine total])
           (db_file w)))
  /\ (let w0 := example_world ["2024"; "1"] example_store in
      monthly_summary (L := reference_lib) w0
      = (Ok tt,
         after w0 []
           (prologue ++ [SummaryFor 2024 1;
                         CategoryLine "Food" (Float.of_Z 30) (Float.of_Z 100);
                         TotalLine (Float.of_Z 30)])
           example_store)).
Proof.
  intros Hin Hy Hm Hv filtered total prologue.
  rewrite (monthly_summary_run w y m rest year month Hin Hy Hm). cbv zeta.
  erewrite bind_ok by (apply filter_month_valid; exact Hv).
  fold filtered.
  split; [|split].
  - intros ->. run. reflexivity.
  - intros Hne Hz.
    rewrite (match_nonempty filtered _ _ Hne). run.
    erewrite bind_ok by (apply category_loop_run; exact Hz).
    run. rewrite group_by_category_subtotals.
    unfold prologue. rewrite <- !app_assoc. reflexivity.
  - vm_compute. reflexivity.
Qed.

(** C9.  When the records of the requested month are not empty and their
    amounts sum to a zero, [monthly_summary] stops with
    [ZeroDivisionError] at the first percentage, after the line that names
    the year and month. *)
Theorem monthly_summary_zero_total (w : world) (y m : string) (rest : list string)
    (year month : Z) :
  stdin w = y :: m :: rest ->
  chosen y (Calendar.year (today w)) = Some year ->
  chosen m (Calendar.month (today w)) = Some month ->
  valid_dates (stored w) ->
  let filtered := filter (in_month year month) (stored w) in
  filtered <> [] ->
  Float.is_zero (py_sum (map r_amount filtered)) = true ->
  monthly_summary w
  = (Raise ZeroDivisionError,
     after w rest
       [Text "--- Monthly Summary ---"; Prompt "Year (YYYY): ";
        Prompt "Month (1-12): "; SummaryFor year month]
       (db_file w)).
Proof.
  intros Hin Hy Hm Hv filtered Hne Hz.
  rewrite (monthly_summary_run w y m rest year month Hin Hy Hm). cbv zeta.
  erewrite bind_ok by (apply filter_month_valid; exact Hv).
  fold filtered.
  rewrite (match_nonempty filtered _ _ Hne). run.
  erewrite bind_fails; [reflexivity|].
  apply category_loop_zero; [exact Hz|].
  rewrite group_by_category_subtotals. now apply subtotals_not_empty.
Qed.


(** C10.  When the year or the month typed is neither blank nor an
    integer, [monthly_summary] ends with the [ValueError] of [int] on that
    text.  The error is not caught: nothing is printed after the two
    prompts, the collection is not loaded, and the backing file is as it
    was. *)
Theorem monthly_summary_rejects_text (w : world) (y m : string)
    (rest : list string) :
  stdin w = y :: m :: rest ->
  (Text.strip y <> "" /\ Text.py_int (Text.strip y) = None)
  \/ (Text.strip m <> "" /\ Text.py_int (Text.strip m) = None) ->
  exists bad,
    (bad = Text.strip y \/ bad = Text.strip m)
    /\ Text.py_int bad = None
    /\ monthly_summary w
       = (Raise (ValueError (InvalidIntLiteral bad)),
          after w rest
            [Text "--- Monthly Summary ---"; Prompt "Year (YYYY): ";
             Prompt "Month (1-12): "] (db_file w)).
Proof.
  intros Hin Hbad.
  apply (monthly_summary_bad_input w y m rest Hin).
  destruct Hbad as [H|H]; [left|right]; now apply chosen_none.
Qed.

End MonthlySummary.

(** On the reference runtime every date of the example records parses. *)
Lemma example_dates_valid :
  valid_dates (L := reference_lib) example_records.
Proof.
  intros r [<-|[<-|[<-|[]]]]; vm_compute; discriminate.
Qed.

(** C3 as stated fails on the reference runtime: with the single record
    of 2024-01-05 and amount 0.0 every date parses, the month is not empty,
    and the summary of 2024-01 stops with [ZeroDivisionError] before any
    subtotal or total is printed; and on the example store the summary of
    2024-03, a month without records, prints no total either. *)
Lemma monthly_summary_always_reports_counterexample :
  (let zero := [mkRecord 1 "2024-01-05" "" "Food" (Float.of_Z 0) ""] in
   let w := example_world ["2024"; "1"] (Some (Json.dump zero)) in
   stored (L := reference_lib) w = zero
   /\ valid_dates (L := reference_lib) zero
   /\ filter (in_month (L := reference_lib) 2024 1) zero = zero
   /\ monthly_summary (L := reference_lib) w
      = (Raise ZeroDivisionError,
         after w []
           [Text "--- Monthly Summary ---"; Prompt "Year (YYYY): ";
            Prompt "Month (1-12): "; SummaryFor 2024 1]
           (db_file w)))
  /\ (let w := example_world ["2024"; "3"] example_store in
      stored (L := reference_lib) w = example_records
      /\ monthly_summary (L := reference_lib) w
         = (Ok tt,
            after w []
              [Text "--- Monthly Summary ---"; Prompt "Year (YYYY): ";
               Prompt "Month (1-12): "; Text "No records."]
              (db_file w))).
Proof.
  split.
  - intros zero w.
    split; [vm_compute; reflexivity|].
    split; [intros r [<-|[]]; vm_compute; discriminate|].
    split; vm_compute; reflexivity.
  - intros w. split; vm_compute; reflexivity.
Qed.

(** C3 as amended, on the reference runtime: the summary of 2024-01 on
    the example store. *)
Lemma monthly_summary_reports_witness :
  let w := example_world ["2024"; "1"; "next"] example_store in
  valid_dates (L := reference_lib) (stored (L := reference_lib) w)
  /\ monthly_summary (L := reference_lib) w
     = (Ok tt,
        after w ["next"]
          [Text "--- Monthly Summary ---"; Prompt "Year (YYYY): ";
           Prompt "Month (1-12): "; SummaryFor 2024 1;
           CategoryLine "Food" (Float.of_Z 30) (Float.of_Z 100);
           TotalLine (Float.of_Z 30)]
          example_store).
Proof.
  intros w.
  assert (Hv : valid_dates (L := reference_lib) (stored (L := reference_lib) w)).
  { replace (stored (L := reference_lib) w) with example_records
      by (vm_compute; reflexivity).
    exact example_dates_valid. }
  split; [exact Hv|].
  destruct (monthly_summary_reports (L := reference_lib) w "2024" "1" ["next"]
              2024 1 eq_refl eq_refl eq_refl Hv) as [_ [Hsome _]].
  rewrite Hsome.
  - vm_compute. reflexivity.
  - vm_compute. discriminate.
  - vm_compute. reflexivity.
Defined.

(** C9 on the reference runtime: one January record of amount 0.0. *)
Lemma monthly_summary_zero_total_witness :
  let zero := [mkRecord 1 "2024-01-05" "" "Food" (Float.of_Z 0) ""] in
  let w := example_world ["2024"; "1"] (Some (Json.dump zero)) in
  stored (L := reference_lib) w = zero
  /\ monthly_summary (L := reference_lib) w
     = (Raise ZeroDivisionError,
        after w []
          [Text "--- Monthly Summary ---"; Prompt "Year (YYYY): ";
           Prompt "Month (1-12): "; SummaryFor 2024 1]
          (db_file w)).
Proof.
  intros zero w.
  assert (Hs : stored (L := reference_lib) w = zero) by (vm_compute; reflexivity).
  split; [exact Hs|].
  apply (monthly_summary_zero_total (L := reference_lib) w "2024" "1" [] 2024 1).
  - reflexivity.
  - reflexivity.
  - reflexivity.
  - rewrite Hs. intros r [<-|[]]. vm_compute. discriminate.
  - rewrite Hs. vm_compute. discriminate.
  - rewrite Hs. vm_compute. reflexivity.
Defined.


(** C10 on the reference runtime: the year is typed as 20x4. *)
Lemma monthly_summary_rejects_text_witness :
  let w := example_world ["20x4"; "1"; "next"] example_store in
  exists bad,
    (bad = Text.strip "20x4" \/ bad = Text.strip "1")
    /\ Text.py_int bad = None
    /\ monthly_summary (L := reference_lib) w
       = (Raise (ValueError (InvalidIntLiteral bad)),
          after w ["next"]
            [Text "--- Monthly Summary ---"; Prompt "Year (YYYY): ";
             Prompt "Month (1-12): "] (db_file w)).
Proof.
  intros w.
  apply (monthly_summary_rejects_text (L := reference_lib) w "20x4" "1" ["next"]).
  - reflexivity.
  - left. split; [vm_compute; discriminate|reflexivity].
Defined.

(** ** [add_expense] *)

Section AddExpense.
Context {L : PyLib}.

(** The three formats are tried in the order of the source, and the first
    that converts the text gives the date. *)
Lemma try_formats_order (text : string) :
  try_formats text date_formats
  = match Calendar.strptime text "%Y-%m-%d" with
    | Some d => Some d
    | None =>
        match Calendar.strptime text "%d-%m-%Y" with
        | Some d => Some d
        | None => Calendar.strptime text "%Y/%m/%d"
        end
    end.
Proof.
  unfold date_formats. cbn [try_formats].
  destruct (Calendar.strptime text "%Y-%m-%d"); [reflexivity|].
  destruct (Calendar.strptime text "%d-%m-%Y"); [reflexivity|].
  destruct (Calendar.strptime text "%Y/%m/%d"); reflexivity.
Qed.

Lemma try_formats_none (text : string) :
  try_formats text date_formats = None <->
  Calendar.strptime text "%Y-%m-%d" = None
  /\ Calendar.strptime text "%d-%m-%Y" = None
  /\ Calendar.strptime text "%Y/%m/%d" = None.
Proof.
  rewrite try_formats_order.
  destruct (Calendar.strptime text "%Y-%m-%d");
    destruct (Calendar.strptime text "%d-%m-%Y");
    destruct (Calendar.strptime text "%Y/%m/%d");
    intuition congruence.
Qed.

Lemma date_step {B : Type} (w : world) (r : list string) (o : list line)
    (f : option string) (text : string) (d : Calendar.date) (k : Calendar.date -> M B) :
  (text = "" /\ d = today w)
  \/ (text <> "" /\ try_formats text date_formats = Some d) ->
  bind (if is_blank text then get_today else parse_date text) k (after w r o f)
  = k d (after w r o f).
Proof.
  unfold is_blank, parse_date.
  intros [[-> ->]|[Hne Hd]].
  - reflexivity.
  - destruct (String.eqb_spec text "") as [E|_]; [contradiction|].
    rewrite Hd. reflexivity.
Qed.

Lemma date_step_invalid {B : Type} (w : world) (r : list string) (o : list line)
    (f : option string) (text : string) (k : Calendar.date -> M B) :
  text <> "" -> try_formats text date_formats = None ->
  bind (if is_blank text then get_today else parse_date text) k (after w r o f)
  = (Raise (ValueError InvalidDateFormat), after w r o f).
Proof.
  unfold is_blank, parse_date. intros Hne Hd.
  destruct (String.eqb_spec text "") as [E|_]; [contradiction|].
  rewrite Hd. reflexivity.
Qed.

Lemma int_of_float_finite (x : Float.float) (w : world) :
  Float.is_finite x = true -> int_of_float x w = (Ok (Float.trunc x), w).
Proof. destruct x; simpl; intros H; try discriminate; reflexivity. Qed.

(** C1.  With a date text that is blank or parses, and an amount text
    that [float] accepts, [add_expense] appends exactly one record to the
    stored collection and writes the whole collection to the backing file.
    The record carries the date in ISO form (today's for a blank text),
    the title and the note as typed, the category as typed or ["Other"]
    for a blank one, the amount, and as id the integer part of the clock's
    timestamp times 1000. *)
Theorem add_expense_appends (w : world)
    (date_text title category amount_text note : string) (rest : list string)
    (date : Calendar.date) (amount : Float.float) :
  stdin w = date_text :: title :: category :: amount_text :: note :: rest ->
  (Text.strip date_text = "" /\ date = today w)
  \/ (Text.strip date_text <> ""
      /\ try_formats (Text.strip date_text) date_formats = Some date) ->
  Float.py_float (Text.strip amount_text) = Some amount ->
  Float.is_finite (Float.mul (timestamp w) (Float.of_Z 1000)) = true ->
  let record :=
    mkRecord (Float.trunc (Float.mul (timestamp w) (Float.of_Z 1000)))
             (Calendar.isoformat date) (Text.strip title)
             (if is_blank (Text.strip category) then "Other" else Text.strip category)
             amount (Text.strip note) in
  let data := stored w ++ [record] in
  let w' :=
    after w rest
      [Text "--- Add Expense ---";
       Prompt "Date (YYYY-MM-DD) [leave blank for today]: ";
       Prompt "Title: "; Prompt "Category: "; Prompt "Amount: ";
       Prompt "Note (optional): "; Text "Expense added successfully!"]
      (Some (json_dump data)) in
  add_expense w = (Ok tt, w')
  /\ List.length data = S (List.length (stored w))
  /\ (json_load (json_dump data) = Some data ->
      stored w' = data /\ List.length (stored w') = S (List.length (stored w))).
Proof.
  intros Hin Hdate Hamount Hclock record data w'.
  assert (Hlen : List.length data = S (List.length (stored w))).
  { unfold data. rewrite length_app. simpl. lia. }
  split; [|split; [exact Hlen|]].
  - unfold add_expense. rewrite start_print, Hin.
    erewrite bind_ok.
    2:{ unfold try_except. run.
        rewrite (date_step _ _ _ _ _ date) by exact Hdate. run.
        unfold float_of_text. rewrite Hamount. run. reflexivity. }
    cbv beta match. run.
    erewrite bind_ok by (apply int_of_float_finite; exact Hclock).
    run. reflexivity.
  - intros Hjson.
    assert (Hs : stored w' = data) by (now apply stored_after).
    split; [exact Hs|]. now rewrite Hs.
Qed.

(** Once the date is accepted the next thing printed is the prompt for
    the title, however the command ends. *)
Lemma add_expense_date_accepted (w : world) (date_text : string)
    (rest0 : list string) (date : Calendar.date) :
  stdin w = date_text :: rest0 ->
  (Text.strip date_text = "" /\ date = today w)
  \/ (Text.strip date_text <> ""
      /\ try_formats (Text.strip date_text) date_formats = Some date) ->
  exists res rest out file,
    add_expense w
    = (res,
       after w rest
         ([Text "--- Add Expense ---";
           Prompt "Date (YYYY-MM-DD) [leave blank for today]: ";
           Prompt "Title: "] ++ out)
         file).
Proof.
  intros Hin Hdate. unfold add_expense. rewrite start_print, Hin.
  rewrite bind_try_except. run.
  rewrite (date_step _ _ _ _ _ date) by exact Hdate.
  destruct rest0 as [|title [|category [|amount_text rest]]]; run;
    try (cbn [is_ValueError]; do 4 eexists; cbn [app]; reflexivity).
  unfold float_of_text.
  destruct (Float.py_float (Text.strip amount_text)) as [amount|]; run.
  - destruct rest as [|note rest]; run.
    + cbn [is_ValueError]. do 4 eexists. cbn [app]. reflexivity.
    + unfold int_of_float.
      destruct (Float.mul (timestamp w) (Float.of_Z 1000)); run;
        do 4 eexists; cbn [app]; reflexivity.
  - cbn [is_ValueError]. run. do 4 eexists. cbn [app]. reflexivity.
Qed.

(** C7.  [add_expense] reports the invalid-date error, without reading
    further, exactly when the date text is not blank and none of the three
    formats converts it; the formats are tried in the order of the source.
    With an accepted date and an amount text that [float] rejects it
    reports the invalid-amount error.  In both cases the backing file and
    the stored collection are as they were. *)
Theorem add_expense_rejects (w : world) (date_text : string) (rest0 : list string) :
  stdin w = date_text :: rest0 ->
  let text := Text.strip date_text in
  let invalid_date :=
    text <> ""
    /\ Calendar.strptime text "%Y-%m-%d" = None
    /\ Calendar.strptime text "%d-%m-%Y" = None
    /\ Calendar.strptime text "%Y/%m/%d" = None in
  let date_failure :=
    after w rest0
      [Text "--- Add Expense ---";
       Prompt "Date (YYYY-MM-DD) [leave blank for today]: ";
       InvalidInput (ValueError InvalidDateFormat)]
      (db_file w) in
  (add_expense w = (Ok tt, date_failure) <-> invalid_date)
  /\ try_formats text date_formats
     = match Calendar.strptime text "%Y-%m-%d" with
       | Some d => Some d
       | None =>
           match Calendar.strptime text "%d-%m-%Y" with
           | Some d => Some d
           | None => Calendar.strptime text "%Y/%m/%d"
           end
       end
  /\ (forall title category amount_text rest,
        rest0 = title :: category :: amount_text :: rest ->
        ~ invalid_date ->
        Float.py_float (Text.strip amount_text) = None ->
        let amount_failure :=
          after w rest
            [Text "--- Add Expense ---";
             Prompt "Date (YYYY-MM-DD) [leave blank for today]: ";
             Prompt "Title: "; Prompt "Category: "; Prompt "Amount: ";
             InvalidInput (ValueError (InvalidFloatLiteral (Text.strip amount_text)))]
            (db_file w) in
        add_expense w = (Ok tt, amount_failure)
        /\ db_file amount_failure = db_file w
        /\ List.length (stored amount_failure) = List.length (stored w))
  /\ db_file date_failure = db_file w
  /\ List.length (stored date_failure) = List.length (stored w).
Proof.
  intros Hin text invalid_date date_failure.
  assert (Hcases : invalid_date
                   \/ exists date,
                        (text = "" /\ date = today w)
                        \/ (text <> "" /\ try_formats text date_formats = Some date)).
  { destruct (string_dec text "") as [E|E].
    - right. exists (today w). now left.
    - destruct (try_formats text date_formats) as [d|] eqn:T.
      + right. exists d. now right.
      + left. split; [exact E|]. now apply try_formats_none. }
  assert (Hfail : invalid_date -> add_expense w = (Ok tt, date_failure)).
  { intros [Hne Hnone]. apply try_formats_none in Hnone.
    unfold add_expense. rewrite start_print, Hin.
    rewrite bind_try_except. run.
    rewrite date_step_invalid by assumption.
    cbn [is_ValueError]. run. reflexivity. }
  split; [|split; [|split; [|split]]].
  - split; [|exact Hfail].
    intros Hrun. destruct Hcases as [Hinv|[date Hok]]; [exact Hinv|].
    destruct (add_expense_date_accepted w date_text rest0 date Hin Hok)
      as [res [rest [out [file Hother]]]].
    rewrite Hother in Hrun. unfold date_failure, after in Hrun.
    injection Hrun as _ _ Hout _.
    apply app_inv_head in Hout. discriminate.
  - apply try_formats_order.
  - intros title category amount_text rest -> Hvalid Hamount amount_failure.
    split; [|split; reflexivity].
    destruct Hcases as [Hinv|[date Hok]]; [contradiction|].
    unfold add_expense. rewrite start_print, Hin.
    rewrite bind_try_except. run.
    rewrite (date_step _ _ _ _ _ date) by exact Hok. run.
    unfold float_of_text. rewrite Hamount. run.
    cbn [is_ValueError]. run. reflexivity.
  - reflexivity.
  - reflexivity.
Qed.

End AddExpense.

(** C1 on the reference runtime: an expense dated in the second format,
    with a blank category, is added to the example store at timestamp
    1710500000.123456. *)
Lemma add_expense_appends_witness :
  let w := example_world ["05-03-2024"; " Lunch "; " "; "12.50"; ""; "next"]
                         example_store in
  let record := mkRecord 1710500000123 "2024-03-05" "Lunch" "Other"
                         (Float.of_decimal false 125 (-1)) "" in
  let w' :=
    after w ["next"]
      [Text "--- Add Expense ---";
       Prompt "Date (YYYY-MM-DD) [leave blank for today]: ";
       Prompt "Title: "; Prompt "Category: "; Prompt "Amount: ";
       Prompt "Note (optional): "; Text "Expense added successfully!"]
      (Some (Json.dump (example_records ++ [record]))) in
  add_expense (L := reference_lib) w = (Ok tt, w')
  /\ stored (L := reference_lib) w' = example_records ++ [record].
Proof.
  intros w record w'.
  destruct (add_expense_appends (L := reference_lib) w
              "05-03-2024" " Lunch " " " "12.50" "" ["next"]
              (Calendar.mkDate 2024 3 5) (Float.of_decimal false 125 (-1)))
    as [Hrun [_ Hstored]].
  - reflexivity.
  - right. split; [vm_compute; discriminate|vm_compute; reflexivity].
  - vm_compute. reflexivity.
  - vm_compute. reflexivity.
  - split.
    + rewrite Hrun. vm_compute. reflexivity.
    + vm_compute. reflexivity.
Defined.

(** C7 on the reference runtime: the date 13/45/9999 is refused, and with
    a blank date the amount abc is refused; the store is not written. *)
Lemma add_expense_rejects_witness :
  (let w := example_world ["13/45/9999"; "Lunch"; "Food"; "12.50"; ""] example_store in
   add_expense (L := reference_lib) w
   = (Ok tt,
      after w ["Lunch"; "Food"; "12.50"; ""]
        [Text "--- Add Expense ---";
         Prompt "Date (YYYY-MM-DD) [leave blank for today]: ";
         InvalidInput (ValueError InvalidDateFormat)]
        example_store))
  /\ (let w := example_world [""; "Lunch"; "Food"; "abc"; ""] example_store in
      add_expense (L := reference_lib) w
      = (Ok tt,
         after w [""]
           [Text "--- Add Expense ---";
            Prompt "Date (YYYY-MM-DD) [leave blank for today]: ";
            Prompt "Title: "; Prompt "Category: "; Prompt "Amount: ";
            InvalidInput (ValueError (InvalidFloatLiteral "abc"))]
           example_store)).
Proof.
  split; intros w.
  - apply (proj2 (proj1 (add_expense_rejects (L := reference_lib) w
                           "13/45/9999" ["Lunch"; "Food"; "12.50"; ""] eq_refl))).
    repeat split; try reflexivity. vm_compute. discriminate.
  - destruct (add_expense_rejects (L := reference_lib) w
                "" ["Lunch"; "Food"; "abc"; ""] eq_refl) as [_ [_ [Hamount _]]].
    destruct (Hamount "Lunch" "Food" "abc" [""] eq_refl) as [Hrun _].
    + intros [Hne _]. apply Hne. reflexivity.
    + reflexivity.
    + exact Hrun.
Defined.

(** * Further properties of the code *)

(** ** [parse_date] and the stored form of a date *)

Lemma digit_val_digit_char (k : Z) :
  0 <= k <= 9 -> Text.digit_val (Calendar.digit_char k) = Some k.
Proof.
  intros H.
  assert (C : k = 0 \/ k = 1 \/ k = 2 \/ k = 3 \/ k = 4 \/ k = 5 \/ k = 6
              \/ k = 7 \/ k = 8 \/ k = 9) by lia.
  repeat (destruct C as [->|C]; [reflexivity|]). now subst.
Qed.

Lemma zero_pad_two (n : Z) (acc : string) :
  Calendar.zero_pad 2 n acc
  = String (Calendar.digit_char (n / 10 mod 10))
           (String (Calendar.digit_char (n mod 10)) acc).
Proof. reflexivity. Qed.

Lemma zero_pad_four (n : Z) (acc : string) :
  Calendar.zero_pad 4 n acc
  = String (Calendar.digit_char (n / 10 / 10 / 10 mod 10))
      (String (Calendar.digit_char (n / 10 / 10 mod 10))
         (String (Calendar.digit_char (n / 10 mod 10))
            (String (Calendar.digit_char (n mod 10)) acc))).
Proof. reflexivity. Qed.

Section ReadingFields.
Context {R : Type} (k : Z -> list ascii -> option R) (rest : list ascii) (r : R).

Lemma read_year (y : Z) :
  1 <= y <= 9999 -> k y rest = Some r ->
  Calendar.try_alternatives Calendar.pattern_Y k
    (Calendar.digit_char (y / 10 / 10 / 10 mod 10)
       :: Calendar.digit_char (y / 10 / 10 mod 10)
       :: Calendar.digit_char (y / 10 mod 10)
       :: Calendar.digit_char (y mod 10) :: rest)
  = Some r.
Proof.
  intros Hy Hk.
  unfold Calendar.pattern_Y, Calendar.try_alternatives, Calendar.two_digits.
  rewrite !digit_val_digit_char by (Z.div_mod_to_equations; lia).
  replace (100 * (10 * (y / 10 / 10 / 10 mod 10) + y / 10 / 10 mod 10)
           + (10 * (y / 10 mod 10) + y mod 10)) with y.
  - now rewrite Hk.
  - Z.div_mod_to_equations. lia.
Qed.

Lemma read_month (m : Z) :
  1 <= m <= 12 -> k m rest = Some r ->
  Calendar.try_alternatives Calendar.pattern_m k
    (Calendar.digit_char (m / 10 mod 10) :: Calendar.digit_char (m mod 10) :: rest)
  = Some r.
Proof.
  intros Hm Hk.
  assert (C : m = 1 \/ m = 2 \/ m = 3 \/ m = 4 \/ m = 5 \/ m = 6 \/ m = 7
              \/ m = 8 \/ m = 9 \/ m = 10 \/ m = 11 \/ m = 12) by lia.
  repeat (destruct C as [->|C]; [simpl; now rewrite Hk|]).
  subst. simpl. now rewrite Hk.
Qed.

Lemma read_day (d : Z) :
  1 <= d <= 31 -> k d rest = Some r ->
  Calendar.try_alternatives Calendar.pattern_d k
    (Calendar.digit_char (d / 10 mod 10) :: Calendar.digit_char (d mod 10) :: rest)
  = Some r.
Proof.
  intros Hd Hk.
  assert (C : d = 1 \/ d = 2 \/ d = 3 \/ d = 4 \/ d = 5 \/ d = 6 \/ d = 7
              \/ d = 8 \/ d = 9 \/ d = 10 \/ d = 11 \/ d = 12 \/ d = 13
              \/ d = 14 \/ d = 15 \/ d = 16 \/ d = 17 \/ d = 18 \/ d = 19
              \/ d = 20 \/ d = 21 \/ d = 22 \/ d = 23 \/ d = 24 \/ d = 25
              \/ d = 26 \/ d = 27 \/ d = 28 \/ d = 29 \/ d = 30 \/ d = 31) by lia.
  repeat (destruct C as [->|C]; [simpl; now rewrite Hk|]).
  subst. simpl. now rewrite Hk.
Qed.

End ReadingFields.

Lemma valid_date_bounds (y m d : Z) :
  Calendar.valid_date y m d = true ->
  1 <= y <= 9999 /\ 1 <= m <= 12 /\ 1 <= d <= 31.
Proof.
  unfold Calendar.valid_date, Calendar.days_in_month.
  intros H. repeat (apply andb_prop in H; destruct H as [H ?]).
  destruct (m =? 2); [destruct (Calendar.is_leap y)|];
    try destruct ((m =? 4) || (m =? 6) || (m =? 9) || (m =? 11)); lia.
Qed.

Lemma strptime_isoformat (d : Calendar.date) :
  Calendar.valid_date (Calendar.year d) (Calendar.month d) (Calendar.day d) = true ->
  Calendar.strptime (Calendar.isoformat d) "%Y-%m-%d" = Some d.
Proof.
  destruct d as [y m dd]. simpl. intros Hv.
  destruct (valid_date_bounds y m dd Hv) as [Hy [Hm Hd]].
  unfold Calendar.strptime, Calendar.isoformat. cbn [Calendar.year Calendar.month Calendar.day].
  change (Calendar.compile (list_ascii_of_string "%Y-%m-%d"))
    with (Some [Calendar.Dir_Y; Calendar.Lit "-"; Calendar.Dir_m;
                Calendar.Lit "-"; Calendar.Dir_d]).
  rewrite zero_pad_four, !zero_pad_two.
  cbn [list_ascii_of_string Calendar.regex_match].
  erewrite read_year; [|exact Hy|].
  2:{ cbn [Calendar.year Calendar.month Calendar.day]. rewrite Ascii.eqb_refl.
      erewrite read_month; [reflexivity|exact Hm|].
      rewrite Ascii.eqb_refl.
      erewrite read_day; [reflexivity|exact Hd|]. reflexivity. }
  cbn [Calendar.year Calendar.month Calendar.day]. now rewrite Hv.
Qed.

Lemma strptime_gives_valid_date (text fmt : string) (d : Calendar.date) :
  Calendar.strptime text fmt = Some d ->
  Calendar.valid_date (Calendar.year d) (Calendar.month d) (Calendar.day d) = true.
Proof.
  unfold Calendar.strptime.
  destruct (Calendar.compile (list_ascii_of_string fmt)) as [ds|]; [|discriminate].
  destruct (Calendar.regex_match ds (list_ascii_of_string text)
              (Calendar.mkDate 1900 1 1)) as [[f [|c rest]]|]; try discriminate.
  destruct (Calendar.valid_date (Calendar.year f) (Calendar.month f) (Calendar.day f))
    eqn:E; [|discriminate].
  intros H. injection H as <-. exact E.
Qed.

Lemma try_formats_gives_valid_date (text : string) (fmts : list string)
    (d : Calendar.date) :
  try_formats text fmts = Some d ->
  Calendar.valid_date (Calendar.year d) (Calendar.month d) (Calendar.day d) = true.
Proof.
  induction fmts as [|fmt fmts IH]; simpl; [discriminate|].
  destruct (Calendar.strptime text fmt) as [d'|] eqn:E; [|exact IH].
  intros H. injection H as <-. eapply strptime_gives_valid_date. exact E.
Qed.

(** X1.  The ISO text of a calendar date is read back by [parse_date] as
    that date. *)
Theorem parse_date_isoformat (d : Calendar.date) (w : world) :
  Calendar.valid_date (Calendar.year d) (Calendar.month d) (Calendar.day d) = true ->
  parse_date (Calendar.isoformat d) w = (Ok d, w).
Proof.
  intros Hv. unfold parse_date, date_formats. cbn [try_formats].
  now rewrite strptime_isoformat.
Qed.

Lemma parse_date_isoformat_witness :
  Calendar.isoformat (Calendar.mkDate 2024 2 29) = "2024-02-29"
  /\ forall w, parse_date "2024-02-29" w = (Ok (Calendar.mkDate 2024 2 29), w).
Proof.
  split; [reflexivity|].
  intros w. apply (parse_date_isoformat (Calendar.mkDate 2024 2 29) w). reflexivity.
Defined.

(** X2.  [parse_date] ends in one of two ways: with the [ValueError] of
    its last line, or with a date that exists in the calendar, in whichever
    of the three formats it was typed; the ISO text of that date, which is
    what gets stored, parses to the same date. *)
Theorem parse_date_outcome (text : string) (w : world) :
  parse_date text w = (Raise (ValueError InvalidDateFormat), w)
  \/ exists d,
       parse_date text w = (Ok d, w)
       /\ Calendar.valid_date (Calendar.year d) (Calendar.month d) (Calendar.day d) = true
       /\ parse_date (Calendar.isoformat d) w = (Ok d, w).
Proof.
  unfold parse_date at 1 2.
  destruct (try_formats text date_formats) as [d|] eqn:E; [right|left; reflexivity].
  pose proof (try_formats_gives_valid_date _ _ _ E) as Hv.
  exists d. split; [reflexivity|]. split; [exact Hv|].
  unfold parse_date, date_formats. cbn [try_formats].
  now rewrite strptime_isoformat.
Qed.

(** ** [delete], beyond a single well-formed deletion *)

Section DeleteFurther.
Context {L : PyLib}.

Lemma delete_run (w : world) (text : string) (rest : list string) (id_num : Z) :
  stdin w = text :: rest ->
  Text.py_int (Text.strip text) = Some id_num ->
  delete w
  = (Ok tt,
     if forallb (other_id id_num) (stored w)
     then after w rest
            [Text "--- Delete Expense ---"; Prompt "Enter ID: "; Text "ID not found."]
            (db_file w)
     else after w rest
            [Text "--- Delete Expense ---"; Prompt "Enter ID: ";
             Text "Deleted successfully!"]
            (Some (json_dump (filter (other_id id_num) (stored w))))).
Proof.
  intros Hin Hid. unfold delete. rewrite start_print, Hin.
  rewrite bind_try_except. run.
  unfold int_of_text. rewrite Hid. run.
  change (fun r : ExpenseRecord => negb (r_id r =? id_num)) with (other_id id_num).
  rewrite filter_keeps_length.
  destruct (forallb (other_id id_num) (stored w)); run; reflexivity.
Qed.

(** X3.  [delete] removes every record that carries the id, however many
    there are: the stored collection keeps the other records in order and
    shrinks by the number of records with that id. *)
Theorem delete_removes_all_copies (w : world) (text : string) (rest : list string)
    (id_num : Z) :
  stdin w = text :: rest ->
  Text.py_int (Text.strip text) = Some id_num ->
  let kept := filter (other_id id_num) (stored w) in
  json_load (json_dump kept) = Some kept ->
  exists w',
    delete w = (Ok tt, w')
    /\ stored w' = kept
    /\ (List.length (stored w') + count_occ Z.eq_dec (map r_id (stored w)) id_num
        = List.length (stored w))%nat
    /\ (forall r, In r (stored w') -> r_id r <> id_num).
Proof.
  intros Hin Hid kept Hjson.
  rewrite (delete_run w text rest id_num Hin Hid).
  assert (Hnone : forall r, In r kept -> r_id r <> id_num).
  { intros r Hr. apply filter_In in Hr. destruct Hr as [_ Hr].
    unfold other_id in Hr. apply Z.eqb_neq. now destruct (r_id r =? id_num). }
  destruct (forallb (other_id id_num) (stored w)) eqn:E.
  - eexists. split; [reflexivity|].
    assert (Hs : stored (after w rest
                   [Text "--- Delete Expense ---"; Prompt "Enter ID: ";
                    Text "ID not found."] (db_file w)) = kept).
    { rewrite stored_unchanged. unfold kept. now rewrite filter_all. }
    rewrite Hs. split; [reflexivity|]. split; [apply other_id_count|exact Hnone].
  - eexists. split; [reflexivity|].
    fold kept. rewrite (stored_after w _ _ kept Hjson).
    split; [reflexivity|]. split; [apply other_id_count|exact Hnone].
Qed.


End DeleteFurther.

(** X3 on the reference runtime: two records share the id 7, and one
    deletion removes both. *)
Lemma delete_removes_all_copies_witness :
  let twice := [ mkRecord 7 "2024-01-05" "a" "Food" (Float.of_Z 10) "";
                 mkRecord 8 "2024-01-06" "b" "Food" (Float.of_Z 20) "";
                 mkRecord 7 "2024-01-07" "c" "Rent" (Float.of_Z 30) "" ] in
  let w := example_world [" 7 "] (Some (Json.dump twice)) in
  exists w',
    delete (L := reference_lib) w = (Ok tt, w')
    /\ stored (L := reference_lib) w'
       = [mkRecord 8 "2024-01-06" "b" "Food" (Float.of_Z 20) ""].
Proof.
  intros twice w.
  destruct (delete_removes_all_copies (L := reference_lib) w " 7 " [] 7
              eq_refl eq_refl) as [w' [Hrun [Hs _]]].
  - vm_compute. reflexivity.
  - exists w'. split; [exact Hrun|]. rewrite Hs. vm_compute. reflexivity.
Defined.

(** ** [view_all], on every store *)

Lemma add_nan_left (x : Float.float) : Float.add S754_nan x = S754_nan.
Proof. reflexivity. Qed.

Lemma add_nan_right (x : Float.float) : Float.add x S754_nan = S754_nan.
Proof. destruct x; reflexivity. Qed.

Lemma fold_add_from_nan (xs : list Float.float) :
  fold_left Float.add xs S754_nan = S754_nan.
Proof. induction xs as [|x xs IH]; simpl; [reflexivity|]. now rewrite add_nan_left. Qed.

Lemma fold_add_nan (xs : list Float.float) (acc : Float.float) :
  In S754_nan xs -> fold_left Float.add xs acc = S754_nan.
Proof.
  revert acc. induction xs as [|x xs IH]; intros acc; simpl; [tauto|].
  intros [->|Hin].
  - rewrite add_nan_right. apply fold_add_from_nan.
  - now apply IH.
Qed.

Section ViewAllFurther.
Context {L : PyLib}.

Lemma view_all_run (w : world) :
  stored w <> [] ->
  view_all w
  = (Ok tt,
     after w (stdin w)
       ([Text "--- All Expenses ---"]
          ++ map expense_line (sorted r_date true (stored w))
          ++ [TotalSpent (py_sum (map r_amount (sorted r_date true (stored w))))])
       (db_file w)).
Proof.
  intros Hne. unfold view_all. rewrite start_print. run.
  rewrite (match_nonempty (stored w) _ _ Hne).
  erewrite bind_ok by apply view_loop_run.
  run. rewrite <- app_assoc. reflexivity.
Qed.


(** X6.  Amounts are not checked when they are read back: as soon as one
    stored amount is a NaN, the total that [view_all] prints is a NaN. *)
Theorem view_all_nan_total (w : world) :
  (exists r, In r (stored w) /\ r_amount r = S754_nan) ->
  exists listing,
    view_all w
    = (Ok tt,
       after w (stdin w)
         ([Text "--- All Expenses ---"] ++ listing ++ [TotalSpent S754_nan])
         (db_file w)).
Proof.
  intros [r [Hr Hnan]].
  assert (Hne : stored w <> []) by (intros E; rewrite E in Hr; contradiction).
  rewrite (view_all_run w Hne).
  exists (map expense_line (sorted r_date true (stored w))).
  unfold py_sum. rewrite fold_add_nan; [reflexivity|].
  rewrite <- Hnan. apply in_map.
  eapply Permutation_in; [symmetry; apply sorted_reverse_perm|exact Hr].
Qed.

End ViewAllFurther.

(** X6 on the reference runtime: the text nan is accepted by [float], and
    a store with such an amount has a NaN total. *)
Lemma view_all_nan_total_witness :
  let w := example_world []
             (Some (Json.dump (example_records
                                 ++ [mkRecord 4 "2024-02-02" "x" "Food" S754_nan ""]))) in
  Float.py_float "nan" = Some S754_nan
  /\ exists listing,
       view_all (L := reference_lib) w
       = (Ok tt,
          after w []
            ([Text "--- All Expenses ---"] ++ listing ++ [TotalSpent S754_nan])
            (db_file w)).
Proof.
  intros w. split; [reflexivity|].
  apply (view_all_nan_total (L := reference_lib) w).
  exists (mkRecord 4 "2024-02-02" "x" "Food" S754_nan "").
  split; [|reflexivity].
  vm_compute. do 3 right. left. reflexivity.
Defined.

(** ** The dictionary built by [monthly_summary] *)

(** X7.  The dictionary filled by the loop over the filtered records has
    one entry per category and no key twice; its keys are exactly the
    categories of the records, and each value is the sum of the amounts of
    the records of that category, added in their order. *)
Theorem group_by_category_keys (rs : list ExpenseRecord) :
  NoDup (map fst (group_by_category rs))
  /\ (forall cat, In cat (map fst (group_by_category rs))
                  <-> exists r, In r rs /\ r_category r = cat)
  /\ (forall cat amt, In (cat, amt) (group_by_category rs) ->
                      amt = py_sum (map r_amount (filter (of_category cat) rs))).
Proof.
  rewrite group_by_category_subtotals, subtotals_table.
  rewrite map_map. cbn [fst]. rewrite map_id.
  split; [apply first_seen_NoDup|]. split.
  - intros cat. rewrite first_seen_In, in_map_iff.
    split; intros [r [H1 H2]]; exists r; tauto.
  - intros cat amt Hin. apply in_map_iff in Hin.
    destruct Hin as [k [Hk _]]. injection Hk as <- <-. reflexivity.
Qed.

(** ** [add_expense] and the store *)

Section AddExpenseFurther.
Context {L : PyLib}.

Lemma add_expense_run (w : world)
    (date_text title category amount_text note : string) (rest : list string)
    (date : Calendar.date) (amount : Float.float) :
  stdin w = date_text :: title :: category :: amount_text :: note :: rest ->
  (Text.strip date_text = "" /\ date = today w)
  \/ (Text.strip date_text <> ""
      /\ try_formats (Text.strip date_text) date_formats = Some date) ->
  Float.py_float (Text.strip amount_text) = Some amount ->
  Float.is_finite (Float.mul (timestamp w) (Float.of_Z 1000)) = true ->
  add_expense w
  = (Ok tt,
     after w rest
       [Text "--- Add Expense ---";
        Prompt "Date (YYYY-MM-DD) [leave blank for today]: ";
        Prompt "Title: "; Prompt "Category: "; Prompt "Amount: ";
        Prompt "Note (optional): "; Text "Expense added successfully!"]
       (Some (json_dump
                (stored w
                   ++ [mkRecord (Float.trunc (Float.mul (timestamp w) (Float.of_Z 1000)))
                         (Calendar.isoformat date) (Text.strip title)
                         (if is_blank (Text.strip category) then "Other"
                          else Text.strip category)
                         amount (Text.strip note)])))).
Proof.
  intros Hin Hdate Hamount Hclock.
  unfold add_expense. rewrite start_print, Hin.
  rewrite bind_try_except. run.
  rewrite (date_step _ _ _ _ _ date) by exact Hdate. run.
  unfold float_of_text. rewrite Hamount. run.
  erewrite bind_ok by (apply int_of_float_finite; exact Hclock).
  run. reflexivity.
Qed.

(** X8.  Whatever is typed and however the command ends, [add_expense]
    either leaves the backing file as it was or, ending normally, writes
    the stored collection followed by one new record: it never drops or
    changes a record that was stored. *)
Theorem add_expense_keeps_records (w : world) :
  db_file (snd (add_expense w)) = db_file w
  \/ (fst (add_expense w) = Ok tt
      /\ exists record,
           db_file (snd (add_expense w)) = Some (json_dump (stored w ++ [record]))).
Proof.
  unfold add_expense. rewrite start_print.
  rewrite bind_try_except.
  destruct (stdin w) as [|date_text rest0] eqn:Hin; run; [now left|].
  assert (Hdate : (exists date,
                     (Text.strip date_text = "" /\ date = today w)
                     \/ (Text.strip date_text <> ""
                         /\ try_formats (Text.strip date_text) date_formats = Some date))
                  \/ (Text.strip date_text <> ""
                      /\ try_formats (Text.strip date_text) date_formats = None)).
  { destruct (string_dec (Text.strip date_text) "") as [E|E].
    - left. exists (today w). now left.
    - destruct (try_formats (Text.strip date_text) date_formats) as [d|] eqn:T.
      + left. exists d. now right.
      + right. now split. }
  destruct Hdate as [[date Hok]|[Hne Hnone]].
  2:{ rewrite date_step_invalid by assumption. cbn [is_ValueError]. run. now left. }
  rewrite (date_step _ _ _ _ _ date) by exact Hok.
  destruct rest0 as [|title [|category [|amount_text rest]]]; run;
    try (cbn [is_ValueError]; now left).
  unfold float_of_text.
  destruct (Float.py_float (Text.strip amount_text)) as [amount|]; run.
  2:{ cbn [is_ValueError]. run. now left. }
  destruct rest as [|note rest]; run; [cbn [is_ValueError]; now left|].
  unfold int_of_float.
  destruct (Float.mul (timestamp w) (Float.of_Z 1000)) eqn:Eclock; run;
    try (now left);
    (right; split; [reflexivity|eexists; reflexivity]).
Qed.

(** X9.  When the backing file exists but cannot be decoded, a successful
    [add_expense] replaces it: afterwards the file holds the new record and
    nothing else. *)
Theorem add_expense_replaces_unreadable_file (w : world)
    (date_text title category amount_text note text : string) (rest : list string)
    (date : Calendar.date) (amount : Float.float) :
  db_file w = Some text ->
  json_load text = None ->
  stdin w = date_text :: title :: category :: amount_text :: note :: rest ->
  (Text.strip date_text = "" /\ date = today w)
  \/ (Text.strip date_text <> ""
      /\ try_formats (Text.strip date_text) date_formats = Some date) ->
  Float.py_float (Text.strip amount_text) = Some amount ->
  Float.is_finite (Float.mul (timestamp w) (Float.of_Z 1000)) = true ->
  exists out record,
    add_expense w = (Ok tt, after w rest out (Some (json_dump [record])))
    /\ r_title record = Text.strip title
    /\ r_amount record = amount.
Proof.
  intros Hfile Hbad Hin Hdate Hamount Hclock.
  rewrite (add_expense_run w date_text title category amount_text note rest
             date amount Hin Hdate Hamount Hclock).
  assert (Hs : stored w = []) by (unfold stored; now rewrite Hfile, Hbad).
  rewrite Hs. cbn [app].
  eexists. eexists. split; [reflexivity|]. split; reflexivity.
Qed.

(** X10.  Adding an expense and then deleting the id it was given, when
    no stored record had that id, puts the collection back: the backing
    file holds the collection that was stored before. *)
Theorem add_then_delete (w : world)
    (date_text title category amount_text note id_text : string)
    (rest : list string) (date : Calendar.date) (amount : Float.float) :
  stdin w = date_text :: title :: category :: amount_text :: note :: id_text :: rest ->
  (Text.strip date_text = "" /\ date = today w)
  \/ (Text.strip date_text <> ""
      /\ try_formats (Text.strip date_text) date_formats = Some date) ->
  Float.py_float (Text.strip amount_text) = Some amount ->
  Float.is_finite (Float.mul (timestamp w) (Float.of_Z 1000)) = true ->
  let id := Float.trunc (Float.mul (timestamp w) (Float.of_Z 1000)) in
  Text.py_int (Text.strip id_text) = Some id ->
  (forall r, In r (stored w) -> r_id r <> id) ->
  let record :=
    mkRecord id (Calendar.isoformat date) (Text.strip title)
             (if is_blank (Text.strip category) then "Other" else Text.strip category)
             amount (Text.strip note) in
  json_load (json_dump (stored w ++ [record])) = Some (stored w ++ [record]) ->
  (add_expense ;; delete) w
  = (Ok tt,
     after w rest
       [Text "--- Add Expense ---";
        Prompt "Date (YYYY-MM-DD) [leave blank for today]: ";
        Prompt "Title: "; Prompt "Category: "; Prompt "Amount: ";
        Prompt "Note (optional): "; Text "Expense added successfully!";
        Text "--- Delete Expense ---"; Prompt "Enter ID: ";
        Text "Deleted successfully!"]
       (Some (json_dump (stored w)))).
Proof.
  intros Hin Hdate Hamount Hclock id Hid Hfresh record Hjson.
  erewrite bind_ok
    by (apply (add_expense_run w date_text title category amount_text note
                 (id_text :: rest) date amount Hin Hdate Hamount Hclock)).
  fold id. fold record.
  erewrite (delete_run _ id_text rest id) by (reflexivity || exact Hid).
  rewrite (stored_after w _ _ _ Hjson).
  assert (Hkeep : filter (other_id id) (stored w ++ [record]) = stored w).
  { rewrite filter_app. cbn [filter]. unfold other_id at 2. cbn [r_id record].
    rewrite Z.eqb_refl. cbn [negb]. rewrite app_nil_r.
    apply filter_all. now apply absent_forallb. }
  assert (Hfound : forallb (other_id id) (stored w ++ [record]) = false).
  { rewrite forallb_app. cbn [forallb]. unfold other_id at 2. cbn [r_id record].
    rewrite Z.eqb_refl. cbn [negb]. now rewrite andb_false_r. }
  rewrite Hfound, Hkeep, after_after. reflexivity.
Qed.

End AddExpenseFurther.

(** ** [search] *)

Lemma prefix_occurs (q s : string) :
  String.prefix q s = true <-> exists b, s = (q ++ b)%string.
Proof.
  revert s. induction q as [|c q IH]; intros s.
  - split; [intros _; now exists s|intros _; now destruct s].
  - destruct s as [|c' s]; simpl.
    + split; [discriminate|intros [b Hb]; discriminate].
    + destruct (ascii_dec c c') as [->|Hne].
      * rewrite IH. split; intros [b Hb]; exists b; congruence.
      * split; [discriminate|intros [b Hb]; congruence].
Qed.

(** [contains q s] holds exactly when [q] occurs in [s]. *)
Lemma contains_occurs (q s : string) :
  contains q s = true <-> exists a b, s = (a ++ q ++ b)%string.
Proof.
  induction s as [|c s IH].
  - cbn [contains]. rewrite orb_false_r, prefix_occurs.
    split.
    + intros [b Hb]. now exists "", b.
    + intros [a [b Hab]]. destruct a; [now exists b|discriminate].
  - cbn [contains]. rewrite orb_true_iff, prefix_occurs, IH.
    split.
    + intros [[b Hb]|[a [b Hab]]].
      * now exists "", b.
      * exists (String c a), b. simpl. now rewrite Hab.
    + intros [a [b Hab]]. destruct a as [|c' a].
      * left. now exists b.
      * right. exists a, b. simpl in Hab. congruence.
Qed.

Section Search.
Context {L : PyLib}.

Lemma search_loop_run (rs : list ExpenseRecord) (w : world) (r : list string)
    (o : list line) (f : option string) :
  search_loop rs (after w r o f) = (Ok tt, after w r (o ++ map search_line rs) f).
Proof.
  revert o. induction rs as [|x rs IH]; intros o; simpl.
  - now rewrite app_nil_r.
  - run. rewrite IH, <- app_assoc. reflexivity.
Qed.

Lemma search_run (w : world) (q : string) (rest : list string) :
  stdin w = q :: rest ->
  search w
  = (Ok tt,
     after w rest
       ([Text "--- Search ---"; Prompt "Search text: "]
          ++ match filter (matches (lower (Text.strip q))) (stored w) with
             | [] => [Text "No match."]
             | shown => map search_line shown
             end)
       (db_file w)).
Proof.
  intros Hin. unfold search. rewrite start_print, Hin. run.
  destruct (filter (matches (lower (Text.strip q))) (stored w)) as [|x shown].
  - run. reflexivity.
  - rewrite search_loop_run. reflexivity.
Qed.

(** X11.  [search] shows a record exactly when the query, stripped and
    put in lower case, occurs in the lower-cased title, in the lower-cased
    category, or in the date as it is stored; the records shown keep the
    order of the collection, and the backing file is left as it was. *)
Theorem search_shows_matches (w : world) (q : string) (rest : list string) :
  stdin w = q :: rest ->
  let query := lower (Text.strip q) in
  let occurs_in := fun s : string => exists a b, s = (a ++ query ++ b)%string in
  exists shown,
    search w
    = (Ok tt,
       after w rest
         ([Text "--- Search ---"; Prompt "Search text: "]
            ++ match shown with
               | [] => [Text "No match."]
               | _ => map search_line shown
               end)
         (db_file w))
    /\ shown = filter (matches query) (stored w)
    /\ (forall r, In r shown <->
                  In r (stored w)
                  /\ (occurs_in (lower (r_title r))
                      \/ occurs_in (lower (r_category r))
                      \/ occurs_in (r_date r))).
Proof.
  intros Hin query occurs_in.
  exists (filter (matches query) (stored w)).
  split; [|split; [reflexivity|]].
  { rewrite (search_run w q rest Hin). fold query.
    destruct (filter (matches query) (stored w)); reflexivity. }
  intros r. rewrite filter_In. unfold matches.
  rewrite !orb_true_iff, !contains_occurs. tauto.
Qed.

(** X12.  A blank query matches everything: [search] then prints every
    stored record, in the order of the collection. *)
Theorem search_blank_query (w : world) (q : string) (rest : list string) :
  stdin w = q :: rest ->
  Text.strip q = "" ->
  stored w <> [] ->
  search w
  = (Ok tt,
     after w rest
       ([Text "--- Search ---"; Prompt "Search text: "]
          ++ map search_line (stored w))
       (db_file w)).
Proof.
  intros Hin Hblank Hne.
  rewrite (search_run w q rest Hin), Hblank.
  assert (Hall : filter (matches (lower "")) (stored w) = stored w).
  { apply filter_all. apply forallb_forall. intros r _.
    unfold matches. change (lower "") with "".
    assert (E : forall s, contains "" s = true) by (intros s; now destruct s).
    now rewrite E. }
  rewrite Hall. destruct (stored w); [congruence|reflexivity].
Qed.

End Search.

(** ** What every command preserves

    A relation between the world before and the world after is kept by a
    command when it is reflexive and transitive and is kept by the
    primitive steps: printing, reading a line, saving a collection.  The
    same holds one level up for sessions, with the writing of the export
    file as one more primitive step. *)

Section Invariants.
Context {L : PyLib}.
Variable R : world -> world -> Prop.
Hypothesis R_refl : forall w, R w w.
Hypothesis R_trans : forall a b c, R a b -> R b c -> R a c.
Hypothesis R_print :
  forall w l, R w (mkWorld (stdin w) (stdout w ++ [l]) (db_file w) (today w) (timestamp w)).
Hypothesis R_input :
  forall w l, R w (mkWorld (tl (stdin w)) (stdout w ++ [l]) (db_file w) (today w)
                           (timestamp w)).
Hypothesis R_save :
  forall w data, R w (mkWorld (stdin w) (stdout w) (Some (json_dump data)) (today w)
                              (timestamp w)).

Lemma keeps_ret {A : Type} (a : A) : keeps R (ret a).
Proof. intros w. apply R_refl. Qed.

Lemma keeps_raise {A : Type} (e : exn) : keeps R (raise (A := A) e).
Proof. intros w. apply R_refl. Qed.

Lemma keeps_bind {A B : Type} (m : M A) (k : A -> M B) :
  keeps R m -> (forall a, keeps R (k a)) -> keeps R (bind m k).
Proof.
  intros Hm Hk w. unfold bind. specialize (Hm w).
  destruct (m w) as [[a|e] w']; simpl in *; [|exact Hm].
  eapply R_trans; [exact Hm|apply Hk].
Qed.

Lemma keeps_try_except {A : Type} (body : M A) (catches : exn -> bool)
    (handler : exn -> M A) :
  keeps R body -> (forall e, keeps R (handler e)) ->
  keeps R (try_except body catches handler).
Proof.
  intros Hb Hh w. unfold try_except. specialize (Hb w).
  destruct (body w) as [[a|e] w']; simpl in *; [exact Hb|].
  destruct (catches e); [|exact Hb].
  eapply R_trans; [exact Hb|apply Hh].
Qed.

Lemma keeps_print (l : line) : keeps R (print l).
Proof. intros w. apply R_print. Qed.

Lemma keeps_input (prompt : string) : keeps R (input prompt).
Proof.
  intros w. unfold input. pose proof (R_input w (Prompt prompt)) as H.
  destruct (stdin w); exact H.
Qed.

Lemma keeps_get_today : keeps R get_today.
Proof. intros w. apply R_refl. Qed.

Lemma keeps_get_timestamp : keeps R get_timestamp.
Proof. intros w. apply R_refl. Qed.

Lemma keeps_load_data : keeps R load_data.
Proof. intros w. rewrite load_data_stored. apply R_refl. Qed.

Lemma keeps_save_data (data : list ExpenseRecord) : keeps R (save_data data).
Proof. intros w. apply R_save. Qed.

Lemma keeps_int_of_text (s : string) : keeps R (int_of_text s).
Proof. unfold int_of_text. destruct (Text.py_int s); intros w; apply R_refl. Qed.

Lemma keeps_float_of_text (s : string) : keeps R (float_of_text s).
Proof. unfold float_of_text. destruct (Float.py_float s); intros w; apply R_refl. Qed.

Lemma keeps_int_of_float (x : Float.float) : keeps R (int_of_float x).
Proof. destruct x; intros w; apply R_refl. Qed.

Lemma keeps_parse_date (text : string) : keeps R (parse_date text).
Proof.
  unfold parse_date. destruct (try_formats text date_formats); intros w; apply R_refl.
Qed.

Lemma keeps_date_of (s : string) : keeps R (date_of s).
Proof. unfold date_of. destruct (fromisoformat s); intros w; apply R_refl. Qed.

Lemma keeps_percentage (amt total : Float.float) : keeps R (percentage amt total).
Proof.
  unfold percentage. destruct (Float.truediv amt total); intros w; apply R_refl.
Qed.

Ltac keeps_step :=
  first
    [ apply keeps_bind; [|intros ?]
    | apply keeps_try_except; [|intros ?]
    | apply keeps_print | apply keeps_input | apply keeps_ret | apply keeps_raise
    | apply keeps_get_today | apply keeps_get_timestamp
    | apply keeps_load_data | apply keeps_save_data
    | apply keeps_int_of_text | apply keeps_float_of_text | apply keeps_int_of_float
    | apply keeps_parse_date | apply keeps_date_of | apply keeps_percentage
    | match goal with
      | |- keeps R (match ?x with _ => _ end) => destruct x
      | |- keeps R (if ?b then _ else _) => destruct b
      | |- keeps R (let (_, _) := ?p in _) => destruct p
      end ].

Lemma keeps_view_loop (rs : list ExpenseRecord) (total : Float.float) :
  keeps R (view_loop rs total).
Proof. revert total. induction rs; intros total; simpl; repeat keeps_step. apply IHrs. Qed.

Lemma keeps_filter_month (year month : Z) (data : list ExpenseRecord) :
  keeps R (filter_month year month data).
Proof. induction data; simpl; repeat keeps_step; apply IHdata. Qed.

Lemma keeps_category_loop (items : dict) (total : Float.float) :
  keeps R (category_loop items total).
Proof. induction items; simpl; repeat keeps_step. apply IHitems. Qed.

Lemma keeps_search_loop (rs : list ExpenseRecord) : keeps R (search_loop rs).
Proof. induction rs; simpl; repeat keeps_step. apply IHrs. Qed.

Lemma keeps_add_expense : keeps R add_expense.
Proof. unfold add_expense. cbv zeta. repeat keeps_step. Qed.

Lemma keeps_view_all : keeps R view_all.
Proof. unfold view_all. repeat keeps_step. apply keeps_view_loop. Qed.

Lemma keeps_monthly_summary : keeps R monthly_summary.
Proof.
  unfold monthly_summary. cbv zeta.
  repeat (keeps_step || apply keeps_filter_month || apply keeps_category_loop).
Qed.

Lemma keeps_search : keeps R search.
Proof. unfold search. cbv zeta. repeat (keeps_step || apply keeps_search_loop). Qed.

Lemma keeps_delete : keeps R delete.
Proof. unfold delete. cbv zeta. repeat keeps_step. Qed.

Lemma keeps_print_menu : keeps R print_menu.
Proof. unfold print_menu. repeat keeps_step. Qed.

(** *** Sessions *)

Variable Rs : session -> session -> Prop.
Hypothesis Rs_trans : forall a b c, Rs a b -> Rs b c -> Rs a c.
Hypothesis Rs_lift : forall w w' x, R w w' -> Rs (w, x) (w', x).
Hypothesis Rs_export :
  forall w x data, data <> [] -> Rs (w, x) (w, Some (csv_text data)).

Lemma keeps_session_lift {A : Type} (m : M A) : keeps R m -> keeps_session Rs (lift m).
Proof.
  intros Hm [w x]. unfold lift. simpl. specialize (Hm w).
  destruct (m w) as [r w']. simpl in *. now apply Rs_lift.
Qed.

Lemma keeps_session_then {A B : Type} (m : P A) (k : A -> P B) :
  keeps_session Rs m -> (forall a, keeps_session Rs (k a)) -> keeps_session Rs (then_ m k).
Proof.
  intros Hm Hk s. unfold then_. specialize (Hm s).
  destruct (m s) as [[a|e] s']; simpl in *; [|exact Hm].
  eapply Rs_trans; [exact Hm|apply Hk].
Qed.

Lemma keeps_session_export_csv : keeps_session Rs export_csv.
Proof.
  unfold export_csv.
  apply keeps_session_then; [apply keeps_session_lift, keeps_print|intros _].
  apply keeps_session_then; [apply keeps_session_lift, keeps_load_data|intros data].
  destruct data as [|r data]; [apply keeps_session_lift, keeps_print|].
  apply keeps_session_then; [|intros _; apply keeps_session_lift, keeps_print].
  intros [w x]. apply Rs_export. discriminate.
Qed.

Lemma keeps_session_menu_loop (fuel : nat) : keeps_session Rs (menu_loop fuel).
Proof.
  induction fuel as [|fuel IH]; simpl.
  - intros [w x]. apply Rs_lift, R_refl.
  - apply keeps_session_then; [apply keeps_session_lift, keeps_print_menu|intros _].
    apply keeps_session_then; [apply keeps_session_lift, keeps_input|intros choice].
    cbv zeta.
    repeat match goal with
           | |- keeps_session Rs (if ?b then _ else _) => destruct b
           end;
      try (apply keeps_session_lift, keeps_print);
      (apply keeps_session_then; [|intros _; exact IH]);
      first [ exact keeps_session_export_csv
            | apply keeps_session_lift;
              first [ exact keeps_add_expense | exact keeps_view_all
                    | exact keeps_monthly_summary | exact keeps_search
                    | exact keeps_delete | apply keeps_print ] ].
Qed.

Lemma keeps_session_menu : keeps_session Rs menu.
Proof. intros s. unfold menu. apply keeps_session_menu_loop. Qed.

End Invariants.

(** ** The console during a session *)

Lemma console_refl (w : world) : console_advances w w.
Proof.
  repeat split; [now exists []|exists []; now rewrite app_nil_r].
Qed.

Lemma console_trans (a b c : world) :
  console_advances a b -> console_advances b c -> console_advances a c.
Proof.
  intros [[r1 H1] [[o1 H2] [H3 H4]]] [[r2 H5] [[o2 H6] [H7 H8]]].
  repeat split; try congruence.
  - exists (r1 ++ r2). rewrite H1, H5. now rewrite app_assoc.
  - exists (o1 ++ o2). rewrite H6, H2. now rewrite app_assoc.
Qed.

Lemma console_print (w : world) (l : line) :
  console_advances w
    (mkWorld (stdin w) (stdout w ++ [l]) (db_file w) (today w) (timestamp w)).
Proof. repeat split; [now exists []|now exists [l]]. Qed.

Lemma console_input (w : world) (l : line) :
  console_advances w
    (mkWorld (tl (stdin w)) (stdout w ++ [l]) (db_file w) (today w) (timestamp w)).
Proof.
  repeat split; [|now exists [l]]. simpl.
  destruct (stdin w) as [|x rest]; [now exists []|now exists [x]].
Qed.

Lemma console_save {L : PyLib} (w : world) (data : list ExpenseRecord) :
  console_advances w
    (mkWorld (stdin w) (stdout w) (Some (json_dump data)) (today w) (timestamp w)).
Proof. repeat split; [now exists []|exists []; now rewrite app_nil_r]. Qed.

Section Sessions.
Context {L : PyLib}.

Ltac console :=
  first [ exact console_refl | exact console_trans | exact console_print
        | exact console_input | exact console_save ].

Lemma session_console_trans (a b c : session) :
  session_console a b -> session_console b c -> session_console a c.
Proof. unfold session_console. apply console_trans. Qed.

Lemma advance_lift {A : Type} (m : M A) :
  keeps console_advances m -> keeps_session session_console (lift m).
Proof.
  intros Hm [w x]. unfold lift, session_console. simpl. specialize (Hm w).
  now destruct (m w).
Qed.

Lemma advance_add : keeps_session session_console (lift add_expense).
Proof. apply advance_lift, keeps_add_expense; console. Qed.

Lemma advance_view : keeps_session session_console (lift view_all).
Proof. apply advance_lift, keeps_view_all; console. Qed.

Lemma advance_monthly : keeps_session session_console (lift monthly_summary).
Proof. apply advance_lift, keeps_monthly_summary; console. Qed.

Lemma advance_search : keeps_session session_console (lift search).
Proof. apply advance_lift, keeps_search; console. Qed.

Lemma advance_delete : keeps_session session_console (lift delete).
Proof. apply advance_lift, keeps_delete; console. Qed.

Lemma advance_export : keeps_session session_console export_csv.
Proof.
  apply (keeps_session_export_csv console_advances); try console.
  - exact session_console_trans.
  - intros w w' x H. exact H.
  - intros w x data _. apply console_refl.
Qed.

Lemma advance_print (l : line) : keeps_session session_console (lift (print l)).
Proof. apply advance_lift, keeps_print; console. Qed.

Lemma then_ext {A B : Type} (m : P A) (k1 k2 : A -> P B) (s : session) :
  (forall a s', m s = (Ok a, s') -> k1 a s' = k2 a s') ->
  then_ m k1 s = then_ m k2 s.
Proof.
  intros H. unfold then_. destruct (m s) as [[a|e] s']; [now apply H|reflexivity].
Qed.

Lemma advance_length (s s' : session) :
  session_console s s' ->
  (List.length (stdin (fst s')) <= List.length (stdin (fst s)))%nat.
Proof.
  intros [[read H] _]. rewrite H, length_app. lia.
Qed.

(** Two continuations that agree on every session whose input is no
    longer than the current one give the same turn. *)
Lemma dispatch_ext (k1 k2 : P unit) (choice : string) (s : session) :
  (forall s', (List.length (stdin (fst s')) <= List.length (stdin (fst s)))%nat ->
              k1 s' = k2 s') ->
  dispatch k1 choice s = dispatch k2 choice s.
Proof.
  intros H. unfold dispatch.
  assert (G : forall m : P unit,
             keeps_session session_console m ->
             then_ m (fun _ => k1) s = then_ m (fun _ => k2) s).
  { intros m Hm. apply then_ext. intros a s' E. apply H.
    apply advance_length. specialize (Hm s). now rewrite E in Hm. }
  repeat match goal with
         | |- (if ?b then _ else _) s = _ => destruct b
         end;
    try reflexivity; apply G;
    first [ exact advance_add | exact advance_view | exact advance_monthly
          | exact advance_search | exact advance_delete | exact advance_export
          | apply advance_print ].
Qed.

Lemma print_menu_run (w : world) :
  print_menu w
  = (Ok tt,
     after w (stdin w)
       [Text "=== Smart Expense Tracker ==="; Text "1. Add Expense";
        Text "2. View All Expenses"; Text "3. Monthly Summary"; Text "4. Search";
        Text "5. Delete Expense"; Text "6. Export CSV"; Text "7. Exit"]
       (db_file w)).
Proof. unfold print_menu. rewrite start_print. run. reflexivity. Qed.

(** One turn of the loop, spelled out. *)
Lemma menu_loop_turn (fuel : nat) (s : session) :
  menu_loop (S fuel) s
  = match stdin (fst s) with
    | [] =>
        (Raise EOFError, (after (fst s) [] menu_lines (db_file (fst s)), snd s))
    | choice :: rest =>
        dispatch (menu_loop fuel) (Text.strip choice)
          (after (fst s) rest menu_lines (db_file (fst s)), snd s)
    end.
Proof.
  destruct s as [w x]. cbn [menu_loop fst snd].
  unfold then_ at 1. unfold lift at 1. cbn [fst snd].
  rewrite print_menu_run.
  unfold then_ at 1. unfold lift at 1. cbn [fst snd].
  destruct (stdin w) as [|choice rest] eqn:Hin.
  - unfold input, after. cbn. rewrite <- app_assoc. reflexivity.
  - unfold input, after. cbn. rewrite <- app_assoc. reflexivity.
Qed.

Lemma menu_loop_fuel (n m : nat) (s : session) :
  (List.length (stdin (fst s)) < n)%nat ->
  (List.length (stdin (fst s)) < m)%nat ->
  menu_loop n s = menu_loop m s.
Proof.
  revert m s. induction n as [|n IH]; intros m s Hn Hm; [lia|].
  destruct m as [|m]; [lia|].
  rewrite !menu_loop_turn.
  destruct (stdin (fst s)) as [|choice rest] eqn:Hin; [reflexivity|].
  apply dispatch_ext. cbn [fst after stdin]. intros s' Hs'.
  simpl in Hn, Hm. apply IH; lia.
Qed.

Lemma menu_turn (s : session) :
  menu s
  = match stdin (fst s) with
    | [] =>
        (Raise EOFError, (after (fst s) [] menu_lines (db_file (fst s)), snd s))
    | choice :: rest =>
        dispatch menu (Text.strip choice)
          (after (fst s) rest menu_lines (db_file (fst s)), snd s)
    end.
Proof.
  unfold menu at 1. rewrite menu_loop_turn.
  destruct (stdin (fst s)) as [|choice rest] eqn:Hin; [reflexivity|].
  apply dispatch_ext. cbn [fst after stdin]. intros s' Hs'.
  unfold menu. apply menu_loop_fuel; simpl; lia.
Qed.

(** X13.  The loop of [menu] ends on every input, and behaves as the
    [while True] of the source: at the end of the input it stops with
    [EOFError] after printing the menu; otherwise it reads one choice, runs
    the command chosen, and starts again as [menu] on what is left.  More
    fuel than there are lines of input never changes the outcome. *)
Theorem menu_unfolds (s : session) :
  menu s
  = match stdin (fst s) with
    | [] =>
        (Raise EOFError, (after (fst s) [] menu_lines (db_file (fst s)), snd s))
    | choice :: rest =>
        dispatch menu (Text.strip choice)
          (after (fst s) rest menu_lines (db_file (fst s)), snd s)
    end
  /\ forall fuel, (List.length (stdin (fst s)) < fuel)%nat -> menu_loop fuel s = menu s.
Proof.
  split; [apply menu_turn|].
  intros fuel Hf. unfold menu. apply menu_loop_fuel; lia.
Qed.

Lemma then_ok {A B : Type} (m : P A) (k : A -> P B) (s s' : session) (b : B) :
  then_ m k s = (Ok b, s') ->
  exists a s1, m s = (Ok a, s1) /\ k a s1 = (Ok b, s').
Proof.
  unfold then_. destruct (m s) as [[a|e] s1]; [|discriminate].
  intros H. now exists a, s1.
Qed.

Lemma menu_loop_ends_by_7 (n : nat) (s s' : session) :
  (List.length (stdin (fst s)) < n)%nat ->
  menu_loop n s = (Ok tt, s') ->
  exists read choice out,
    stdin (fst s) = read ++ choice :: stdin (fst s')
    /\ Text.strip choice = "7"
    /\ stdout (fst s') = out ++ [Text "Goodbye!"].
Proof.
  revert s s'. induction n as [|n IH]; intros s s' Hn Hrun; [lia|].
  rewrite menu_loop_turn in Hrun.
  destruct (stdin (fst s)) as [|choice rest] eqn:Hin; [discriminate|].
  simpl in Hn.
  set (s1 := (after (fst s) rest menu_lines (db_file (fst s)), snd s)) in *.
  assert (G : forall m : P unit,
             keeps_session session_console m ->
             then_ m (fun _ => menu_loop n) s1 = (Ok tt, s') ->
             exists read choice0 out,
               choice :: rest = read ++ choice0 :: stdin (fst s')
               /\ Text.strip choice0 = "7"
               /\ stdout (fst s') = out ++ [Text "Goodbye!"]).
  { intros m Hm Hthen.
    destruct (then_ok _ _ _ _ _ Hthen) as [a [s2 [E1 E2]]].
    pose proof (Hm s1) as Hadv. rewrite E1 in Hadv. cbn [snd] in Hadv.
    pose proof (advance_length _ _ Hadv) as Hlen. cbn [s1 fst after stdin] in Hlen.
    destruct (IH s2 s' ltac:(lia) E2) as [read [c [out [H1 [H2 H3]]]]].
    destruct Hadv as [[read1 Hread1] _]. cbn [s1 fst after stdin] in Hread1.
    exists (choice :: read1 ++ read), c, out.
    split; [|split; assumption].
    rewrite Hread1, H1. cbn [app]. now rewrite <- app_assoc. }
  unfold dispatch in Hrun.
  repeat match type of Hrun with
         | (if ?b then _ else _) _ = _ => destruct b eqn:?
         end;
    try (apply G in Hrun; [exact Hrun|];
         first [ exact advance_add | exact advance_view | exact advance_monthly
               | exact advance_search | exact advance_delete | exact advance_export
               | apply advance_print ]).
  unfold lift, print in Hrun. cbn in Hrun. injection Hrun as <-.
  cbn [fst].
  exists [], choice, (stdout (fst s) ++ menu_lines).
  split; [reflexivity|]. split; [now apply String.eqb_eq|reflexivity].
Qed.

(** X14.  [menu] returns normally only through the choice 7: when it
    does, some line that was read strips to 7, the input after that line
    is left unread, and the last line printed is the goodbye.  In every
    other case the session ends with an exception. *)
Theorem menu_returns_by_choice_7 (s s' : session) :
  menu s = (Ok tt, s') ->
  exists read choice out,
    stdin (fst s) = read ++ choice :: stdin (fst s')
    /\ Text.strip choice = "7"
    /\ stdout (fst s') = out ++ [Text "Goodbye!"].
Proof. unfold menu. apply menu_loop_ends_by_7. lia. Qed.

(** X15.  An error of [monthly_summary] ends the whole session: when the
    choice is 3 and the year or the month typed is neither blank nor an
    integer, [menu] ends with that [ValueError]; the lines after the month
    are never read, and both files are as they were. *)
Theorem menu_stops_on_bad_month (s : session) (choice y m : string)
    (rest : list string) :
  stdin (fst s) = choice :: y :: m :: rest ->
  Text.strip choice = "3" ->
  (Text.strip y <> "" /\ Text.py_int (Text.strip y) = None)
  \/ (Text.strip m <> "" /\ Text.py_int (Text.strip m) = None) ->
  exists bad,
    (bad = Text.strip y \/ bad = Text.strip m)
    /\ menu s
       = (Raise (ValueError (InvalidIntLiteral bad)),
          (after (fst s) rest
             (menu_lines ++ [Text "--- Monthly Summary ---"; Prompt "Year (YYYY): ";
                             Prompt "Month (1-12): "])
             (db_file (fst s)),
           snd s)).
Proof.
  intros Hin Hchoice Hbad.
  set (w1 := after (fst s) (y :: m :: rest) menu_lines (db_file (fst s))).
  destruct (monthly_summary_bad_input w1 y m rest eq_refl) as [bad [Hwhich [_ Hrun]]].
  { destruct Hbad as [H|H]; [left|right]; now apply chosen_none. }
  exists bad. split; [exact Hwhich|].
  rewrite (menu_turn s), Hin, Hchoice.
  unfold dispatch. cbn [String.eqb Ascii.eqb Bool.eqb].
  unfold then_, lift. cbn [fst snd]. fold w1. rewrite Hrun.
  unfold w1. rewrite after_after. reflexivity.
Qed.


(** X17.  Throughout a session the backing file is only ever replaced by
    the serialisation of a collection: whatever is typed and however
    [menu] ends, the file is as it was or holds the output of the JSON
    writer. *)
Theorem menu_store_saved (s : session) :
  store_saved (fst s) (fst (snd (menu s))).
Proof.
  apply (keeps_session_menu store_saved) with
    (Rs := fun a b : session => store_saved (fst a) (fst b)).
  - intros w. now left.
  - intros a b c [H1|[d1 H1]] [H2|[d2 H2]]; unfold store_saved.
    + left. congruence.
    + right. now exists d2.
    + right. exists d1. congruence.
    + right. now exists d2.
  - intros w l. now left.
  - intros w l. now left.
  - intros w data. right. now exists data.
  - intros a b c [H1|[d1 H1]] [H2|[d2 H2]]; unfold store_saved.
    + left. congruence.
    + right. now exists d2.
    + right. exists d1. congruence.
    + right. now exists d2.
  - intros w w' x H. exact H.
  - intros w x data _. now left.
Qed.

(** X18.  Throughout a session the export file is only ever replaced by
    the rows of a collection that is not empty: whatever is typed and
    however [menu] ends, the export file is as it was or holds the header
    and at least one record. *)
Theorem menu_export_written (s : session) :
  export_written s (snd (menu s)).
Proof.
  apply (keeps_session_menu (fun _ _ => True)) with (Rs := export_written);
    try (intros; exact I).
  - intros a b c [H1|[d1 [N1 H1]]] [H2|[d2 [N2 H2]]]; unfold export_written.
    + left. congruence.
    + right. now exists d2.
    + right. exists d1. split; [exact N1|congruence].
    + right. now exists d2.
  - intros w w' x _. now left.
  - intros w x data Hne. right. now exists data.
Qed.

(** X19.  [view_all], [monthly_summary] and [search] never write the
    backing file, however they end, and neither does [export_csv]. *)
Theorem reading_commands_keep_store :
  keeps same_store view_all
  /\ keeps same_store monthly_summary
  /\ keeps same_store search
  /\ keeps_session (fun a b : session => same_store (fst a) (fst b)) export_csv.
Proof.
  assert (Hrefl : forall w, same_store w w) by reflexivity.
  assert (Htrans : forall a b c, same_store a b -> same_store b c -> same_store a c)
    by (unfold same_store; intros; congruence).
  assert (Hprint : forall w l,
             same_store w (mkWorld (stdin w) (stdout w ++ [l]) (db_file w) (today w)
                                   (timestamp w))) by reflexivity.
  assert (Hinput : forall w l,
             same_store w (mkWorld (tl (stdin w)) (stdout w ++ [l]) (db_file w)
                                   (today w) (timestamp w))) by reflexivity.
  split; [|split; [|split]].
  - apply keeps_view_all; assumption.
  - apply keeps_monthly_summary; assumption.
  - apply keeps_search; assumption.
  - apply (keeps_session_export_csv same_store); try assumption.
    + intros a b c. apply Htrans.
    + intros w w' x H. exact H.
    + intros w x data _. reflexivity.
Qed.

End Sessions.

(** X9 on the reference runtime: the backing file is not JSON. *)
Lemma add_expense_replaces_unreadable_file_witness :
  let w := example_world [""; "Tea"; "Food"; "2"; ""] (Some "{ not json") in
  exists out record,
    add_expense (L := reference_lib) w
    = (Ok tt, after w [] out (Some (Json.dump [record])))
    /\ r_title record = "Tea"
    /\ r_amount record = Float.of_Z 2.
Proof.
  intros w.
  apply (add_expense_replaces_unreadable_file (L := reference_lib) w
           "" "Tea" "Food" "2" "" "{ not json" [] (Calendar.mkDate 2024 3 15)
           (Float.of_Z 2)).
  - reflexivity.
  - vm_compute. reflexivity.
  - reflexivity.
  - left. split; reflexivity.
  - vm_compute. reflexivity.
  - vm_compute. reflexivity.
Defined.

(** X10 on the reference runtime: an expense is added to the example
    store and deleted again by its id. *)
Lemma add_then_delete_witness :
  let w := example_world ["2024/03/05"; "Tea"; ""; "2"; ""; "1710500000123"; "next"]
                         example_store in
  (add_expense (L := reference_lib) ;; delete (L := reference_lib)) w
  = (Ok tt,
     after w ["next"]
       [Text "--- Add Expense ---";
        Prompt "Date (YYYY-MM-DD) [leave blank for today]: ";
        Prompt "Title: "; Prompt "Category: "; Prompt "Amount: ";
        Prompt "Note (optional): "; Text "Expense added successfully!";
        Text "--- Delete Expense ---"; Prompt "Enter ID: ";
        Text "Deleted successfully!"]
       example_store).
Proof.
  intros w.
  assert (Hs : stored (L := reference_lib) w = example_records)
    by (vm_compute; reflexivity).
  rewrite (add_then_delete (L := reference_lib) w
             "2024/03/05" "Tea" "" "2" "" "1710500000123" ["next"]
             (Calendar.mkDate 2024 3 5) (Float.of_Z 2)).
  - rewrite Hs. reflexivity.
  - reflexivity.
  - right. split; [vm_compute; discriminate|vm_compute; reflexivity].
  - vm_compute. reflexivity.
  - vm_compute. reflexivity.
  - vm_compute. reflexivity.
  - rewrite Hs. intros r [<-|[<-|[<-|[]]]]; vm_compute; discriminate.
  - vm_compute. reflexivity.
Defined.

(** X11 on the reference runtime: the query FOOD, in capitals, finds the
    two records of the category Food. *)
Lemma search_shows_matches_witness :
  let w := example_world [" FOOD "; "next"] example_store in
  exists shown,
    search (L := reference_lib) w
    = (Ok tt,
       after w ["next"]
         ([Text "--- Search ---"; Prompt "Search text: "]
            ++ match shown with
               | [] => [Text "No match."]
               | _ => map search_line shown
               end)
         (db_file w))
    /\ map r_id shown = [1; 2].
Proof.
  intros w.
  destruct (search_shows_matches (L := reference_lib) w " FOOD " ["next"] eq_refl)
    as [shown [Hrun [Hshown _]]].
  exists shown. split; [exact Hrun|].
  rewrite Hshown. vm_compute. reflexivity.
Defined.

(** X12 on the reference runtime: a query of blanks lists the three
    example records. *)
Lemma search_blank_query_witness :
  let w := example_world ["   "] example_store in
  search (L := reference_lib) w
  = (Ok tt,
     after w []
       [Text "--- Search ---"; Prompt "Search text: ";
        search_line (mkRecord 1 "2024-01-05" "" "Food" (Float.of_Z 10) "");
        search_line (mkRecord 2 "2024-01-20" "" "Food" (Float.of_Z 20) "");
        search_line (mkRecord 3 "2024-02-01" "" "Transport" (Float.of_Z 5) "")]
       example_store).
Proof.
  intros w.
  rewrite (search_blank_query (L := reference_lib) w "   " [] eq_refl eq_refl).
  - vm_compute. reflexivity.
  - vm_compute. discriminate.
Defined.

(** X14 on the reference runtime: the listing of an absent store, then the
    choice 7; the line after it is not read. *)
Lemma menu_returns_by_choice_7_witness :
  let s := (example_world ["2"; " 7 "; "1"] None, None) in
  fst (menu (L := reference_lib) s) = Ok tt
  /\ stdin (fst (snd (menu (L := reference_lib) s))) = ["1"]
  /\ exists read choice out,
       stdin (fst s) = read ++ choice :: stdin (fst (snd (menu (L := reference_lib) s)))
       /\ Text.strip choice = "7"
       /\ stdout (fst (snd (menu (L := reference_lib) s))) = out ++ [Text "Goodbye!"].
Proof.
  intros s. split; [vm_compute; reflexivity|]. split; [vm_compute; reflexivity|].
  apply (menu_returns_by_choice_7 (L := reference_lib) s).
  vm_compute. reflexivity.
Defined.

(** X15 on the reference runtime: after an invalid choice, the summary is
    asked for the year 20x4; the deletion typed after it never runs. *)
Lemma menu_stops_on_bad_month_witness :
  let s := (example_world [" 3"; "20x4"; "1"; "5"; "2"] example_store, None) in
  exists bad,
    (bad = Text.strip "20x4" \/ bad = Text.strip "1")
    /\ menu (L := reference_lib) s
       = (Raise (ValueError (InvalidIntLiteral bad)),
          (after (fst s) ["5"; "2"]
             (menu_lines ++ [Text "--- Monthly Summary ---"; Prompt "Year (YYYY): ";
                             Prompt "Month (1-12): "])
             example_store,
           None)).
Proof.
  intros s.
  apply (menu_stops_on_bad_month (L := reference_lib) s " 3" "20x4" "1" ["5"; "2"]).
  - reflexivity.
  - reflexivity.
  - left. split; [vm_compute; discriminate|reflexivity].
Defined.



(** X13 on the reference runtime: two lines of input, and far more fuel
    than the loop needs. *)
Lemma menu_unfolds_witness :
  let s := (example_world ["9"; "7"] example_store, None) in
  menu_loop (L := reference_lib) 40 s = menu (L := reference_lib) s.
Proof.
  intros s.
  apply (proj2 (menu_unfolds (L := reference_lib) s)).
  simpl. lia.
Defined.

